(** * A shallow embedding of the marsa11y accessibility checker

    Source files: [src/src/accessibilityChecker.ts] (the aggregator and the
    severity classifier), the six registered detector families
    ([imageChecker], [formElementsChecker], [otherAccessibilityChecker],
    [ariaLabelRoleChecker], [tabIndexChecker], [semanticHtmlChecker]) and the
    alt-text repair of [altTagAutoFixer.ts].

    Strings are Stdlib [string]s, one [ascii] per code unit.  The JavaScript
    string primitives the detectors use ([includes], [trim], [split('\n')],
    [toLowerCase]) and the regular expressions they match with are written
    out below as executable functions. *)

From Stdlib Require Import String Ascii List Bool Arith Lia Sorting.Sorted DecimalString.
Import ListNotations.
Local Open Scope string_scope.

(* ------------------------------------------------------------------ *)
(** ** JavaScript string primitives *)

(** The double-quote character, as a one-character string. *)
Definition dq : string := String "034"%char EmptyString.

(** [name="value"], the attribute spelling the detectors search for. *)
Definition attr (name value : string) : string :=
  name ++ "=" ++ dq ++ value ++ dq.

Definition char_is (n : nat) (c : ascii) : bool := Nat.eqb (nat_of_ascii c) n.

(** ECMAScript white space and line terminators within one byte: TAB, LF,
    VT, FF, CR, SPACE and NO-BREAK SPACE.  This is the set [String.prototype.trim]
    strips and the class [\s] matches. *)
Definition is_ws (c : ascii) : bool :=
  char_is 9 c || char_is 10 c || char_is 11 c || char_is 12 c
  || char_is 13 c || char_is 32 c || char_is 160 c.

(** Line terminators, which [.] in a regular expression does not match. *)
Definition is_line_terminator (c : ascii) : bool := char_is 10 c || char_is 13 c.

(** [p] is a prefix of [s]. *)
Fixpoint starts_with (p s : string) : bool :=
  match p, s with
  | EmptyString, _ => true
  | String a p', String b s' => Ascii.eqb a b && starts_with p' s'
  | String _ _, EmptyString => false
  end.

(** [s.includes(p)]. *)
Fixpoint includes (s p : string) : bool :=
  starts_with p s ||
  match s with
  | EmptyString => false
  | String _ s' => includes s' p
  end.

Fixpoint trim_start (s : string) : string :=
  match s with
  | EmptyString => EmptyString
  | String c s' => if is_ws c then trim_start s' else s
  end.

Fixpoint trim_end (s : string) : string :=
  match s with
  | EmptyString => EmptyString
  | String c s' =>
      match trim_end s' with
      | EmptyString => if is_ws c then EmptyString else String c EmptyString
      | r => String c r
      end
  end.

(** [s.trim()]. *)
Definition trim (s : string) : string := trim_end (trim_start s).

(** [text.split('\n')]: the empty string splits into [[""]]. *)
Fixpoint split_nl (s : string) : list string :=
  match s with
  | EmptyString => [EmptyString]
  | String c s' =>
      if char_is 10 c then EmptyString :: split_nl s'
      else match split_nl s' with
           | [] => [String c EmptyString]
           | l :: ls => String c l :: ls
           end
  end.

Definition ascii_lower (c : ascii) : ascii :=
  let n := nat_of_ascii c in
  if ((65 <=? n) && (n <=? 90))%nat then ascii_of_nat (n + 32)%nat else c.

(** [s.toLowerCase()] on ASCII letters. *)
Fixpoint to_lower (s : string) : string :=
  match s with
  | EmptyString => EmptyString
  | String c s' => String (ascii_lower c) (to_lower s')
  end.

(* ------------------------------------------------------------------ *)
(** ** The issue record *)

(** [vscode.Range(startLine, startCharacter, endLine, endCharacter)]. *)
Record Range := mkRange {
  start_line : nat; start_character : nat; end_line : nat; end_character : nat }.

(** [interface AccessibilityIssue { line; issue; severity; range }]. *)
Record AccessibilityIssue := mkIssue {
  line : nat; issue : string; severity : string; range : Range }.

(** The runner of every family: [checks.forEach(check => { if (check)
    issues.push(check); })]. *)
Fixpoint collect (checks : list (option AccessibilityIssue)) : list AccessibilityIssue :=
  match checks with
  | [] => []
  | Some i :: cs => i :: collect cs
  | None :: cs => collect cs
  end.

(* ------------------------------------------------------------------ *)
(** ** ImageChecker *)

Module ImageChecker.

Definition checkImageAltAttributes (line : string) (lineNumber : nat)
  : option AccessibilityIssue :=
  let trimmedLine := trim line in
  if includes trimmedLine "<img" && negb (includes trimmedLine "alt=") then
    Some (mkIssue (lineNumber + 1) "Missing alt attribute on image...." "HIGH"
            (mkRange lineNumber 0 lineNumber (String.length line)))
  else None.

Definition checkEmptyAltAttributes (line : string) (lineNumber : nat)
  : option AccessibilityIssue :=
  let trimmedLine := trim line in
  if includes trimmedLine ("alt=" ++ dq ++ dq) || includes trimmedLine "alt=''" then
    Some (mkIssue (lineNumber + 1)
            "Empty alt attribute - consider if image is decorative or needs description"
            "MEDIUM" (mkRange lineNumber 0 lineNumber (String.length line)))
  else None.

Definition checkImages (line : string) (lineNumber : nat) : list AccessibilityIssue :=
  collect [checkImageAltAttributes line lineNumber;
           checkEmptyAltAttributes line lineNumber].

End ImageChecker.

(* ------------------------------------------------------------------ *)
(** ** Regular-expression matching

    Each [String.prototype.match] of the detectors is written out as a
    matcher.  A matcher is tried at every start position from the left
    ([search]); at one position it follows the backtracking semantics of
    the pattern.  Where a greedy run of a class (no [>], no quote, digits)
    must be followed by a character outside that class, backtracking into
    the run cannot help, so the run is taken whole.  Below, Q stands for the
    quote class of the source, which holds the double and the single quote. *)

(** Try [f] at positions [0, 1, ..., length s] and return the first hit. *)
Fixpoint search {A : Type} (f : string -> option A) (s : string) : option A :=
  match f s with
  | Some a => Some a
  | None =>
      match s with
      | EmptyString => None
      | String _ s' => search f s'
      end
  end.

(** The longest prefix of [s] whose characters satisfy [p], and the rest. *)
Fixpoint span (p : ascii -> bool) (s : string) : string * string :=
  match s with
  | EmptyString => (EmptyString, EmptyString)
  | String c s' =>
      if p c then let (a, b) := span p s' in (String c a, b)
      else (EmptyString, s)
  end.

(** The rest of [s] after the literal [p], if [s] starts with it. *)
Fixpoint strip_prefix (p s : string) : option string :=
  match p, s with
  | EmptyString, _ => Some s
  | String a p', String b s' => if Ascii.eqb a b then strip_prefix p' s' else None
  | String _ _, EmptyString => None
  end.

(** Case-insensitive version, for the [/i] flag. *)
Fixpoint strip_prefix_ci (p s : string) : option string :=
  match p, s with
  | EmptyString, _ => Some s
  | String a p', String b s' =>
      if Ascii.eqb (ascii_lower a) (ascii_lower b) then strip_prefix_ci p' s' else None
  | String _ _, EmptyString => None
  end.

Definition is_quote (c : ascii) : bool := char_is 34 c || char_is 39 c.
Definition is_digit (c : ascii) : bool :=
  ((48 <=? nat_of_ascii c) && (nat_of_ascii c <=? 57))%nat.
Definition not_char (n : nat) (c : ascii) : bool := negb (char_is n c).
Definition nonempty (s : string) : bool :=
  match s with EmptyString => false | _ => true end.

(** [Q([^Q]+)Q]: the captured value and the rest of the input. *)
Definition quoted_value (s : string) : option (string * string) :=
  match s with
  | String q r =>
      if is_quote q then
        let (v, r') := span (fun c => negb (is_quote c)) r in
        match r' with
        | String q' r'' => if nonempty v && is_quote q' then Some (v, r'') else None
        | EmptyString => None
        end
      else None
  | EmptyString => None
  end.

(** [/NAME=Q([^Q]+)Q/], group 1. *)
Definition match_attr_value (name s : string) : option string :=
  search (fun t =>
    match strip_prefix (name ++ "=") t with
    | Some r => option_map fst (quoted_value r)
    | None => None
    end) s.

(** [(.*?)CLOSE] at the start of [s]: the shortest run of non-terminator
    characters after which [close] follows. *)
Fixpoint lazy_until (close s : string) : option string :=
  if starts_with close s then Some EmptyString
  else match s with
       | EmptyString => None
       | String c s' =>
           if is_line_terminator c then None
           else option_map (String c) (lazy_until close s')
       end.

(** [OPEN[^>]*>] at the start of [s]: the rest after the [>]. *)
Definition open_tag (open s : string) : option string :=
  match strip_prefix open s with
  | Some r =>
      match snd (span (not_char 62) r) with
      | String c r' => if char_is 62 c then Some r' else None
      | EmptyString => None
      end
  | None => None
  end.

(** [/OPEN[^>]*>(.*?)CLOSE/], group 1. *)
Definition match_tag_content (open close s : string) : option string :=
  search (fun t =>
    match open_tag open t with
    | Some r => lazy_until close r
    | None => None
    end) s.

(** [/>([^<]+)</], group 1. *)
Definition match_text_between_tags (s : string) : option string :=
  search (fun t =>
    match t with
    | String c r =>
        if char_is 62 c then
          let (v, r') := span (not_char 60) r in
          if nonempty v && starts_with "<" r' then Some v else None
        else None
    | EmptyString => None
    end) s.


(* ------------------------------------------------------------------ *)
(** ** FormElementsChecker *)

Module FormElementsChecker.

Definition checkFormInputLabels (line : string) (lineNumber : nat)
  : option AccessibilityIssue :=
  let trimmedLine := trim line in
  if (includes trimmedLine "<input" || includes trimmedLine "<textarea"
      || includes trimmedLine "<select")
     && negb (includes trimmedLine "aria-label")
     && negb (includes trimmedLine "aria-labelledby")
     && negb (includes trimmedLine "id=") && negb (includes trimmedLine "placeholder=") then
    Some (mkIssue (lineNumber + 1) "Form input missing label, aria-label, or aria-labelledby"
            "HIGH" (mkRange lineNumber 0 lineNumber (String.length line)))
  else None.

Definition checkFormLabels (line : string) (lineNumber : nat)
  : option AccessibilityIssue :=
  let trimmedLine := trim line in
  if includes trimmedLine "<label" && negb (includes trimmedLine "for=") then
    Some (mkIssue (lineNumber + 1) "Label element missing for attribute"
            "MEDIUM" (mkRange lineNumber 0 lineNumber (String.length line)))
  else None.

Definition checkFormElements (line : string) (lineNumber : nat) : list AccessibilityIssue :=
  collect [checkFormInputLabels line lineNumber;
           checkFormLabels line lineNumber].

End FormElementsChecker.

(* ------------------------------------------------------------------ *)
(** ** OtherAccessibilityChecker *)

Module OtherAccessibilityChecker.

Definition checkHeadingStructure (line : string) (lineNumber : nat) (fullText : string)
  : option AccessibilityIssue :=
  let trimmedLine := trim line in
  if includes trimmedLine "<h1>" || includes trimmedLine "<h2>" || includes trimmedLine "<h3>"
     || includes trimmedLine "<h4>" || includes trimmedLine "<h5>" || includes trimmedLine "<h6>" then
    if includes trimmedLine "<h1>" && negb (includes fullText "<h1>") then
      Some (mkIssue (lineNumber + 1) "Multiple h1 tags found - page should have only one h1"
              "MEDIUM" (mkRange lineNumber 0 lineNumber (String.length line)))
    else None
  else None.

Definition checkHtmlLangAttribute (line : string) (lineNumber : nat)
  : option AccessibilityIssue :=
  let trimmedLine := trim line in
  if includes trimmedLine "<html" && negb (includes trimmedLine "lang=") then
    Some (mkIssue (lineNumber + 1) "Missing lang attribute on html tag"
            "HIGH" (mkRange lineNumber 0 lineNumber (String.length line)))
  else None.

Definition checkKeyboardAccessibility (line : string) (lineNumber : nat)
  : option AccessibilityIssue :=
  let trimmedLine := trim line in
  if (includes trimmedLine "<div" || includes trimmedLine "<span")
     && includes trimmedLine "onclick" && negb (includes trimmedLine "tabindex")
     && negb (includes trimmedLine "role=") then
    Some (mkIssue (lineNumber + 1)
            "Clickable div/span without keyboard accessibility - add tabindex and role"
            "HIGH" (mkRange lineNumber 0 lineNumber (String.length line)))
  else None.

Definition checkColorOnlyInformation (line : string) (lineNumber : nat)
  : option AccessibilityIssue :=
  let trimmedLine := trim line in
  if includes trimmedLine "color:" || includes trimmedLine "background-color:" then
    Some (mkIssue (lineNumber + 1)
            "Color styling detected - ensure information is not conveyed by color alone"
            "LOW" (mkRange lineNumber 0 lineNumber (String.length line)))
  else None.

Definition checkFocusIndicators (line : string) (lineNumber : nat)
  : option AccessibilityIssue :=
  let trimmedLine := trim line in
  if includes trimmedLine ":focus" && includes trimmedLine "outline: none" then
    Some (mkIssue (lineNumber + 1) "Focus outline removed without alternative focus indicator"
            "HIGH" (mkRange lineNumber 0 lineNumber (String.length line)))
  else None.

Definition checkOtherAccessibility (line : string) (lineNumber : nat) (fullText : string)
  : list AccessibilityIssue :=
  collect [checkHeadingStructure line lineNumber fullText;
           checkHtmlLangAttribute line lineNumber;
           checkKeyboardAccessibility line lineNumber;
           checkColorOnlyInformation line lineNumber;
           checkFocusIndicators line lineNumber].

End OtherAccessibilityChecker.

(** [/^\s*$/.test(s)]. *)
Fixpoint all_ws (s : string) : bool :=
  match s with
  | EmptyString => true
  | String c s' => is_ws c && all_ws s'
  end.

(* ------------------------------------------------------------------ *)
(** ** AriaLabelRoleChecker *)

Module AriaLabelRoleChecker.

Definition VALID_ROLES : list string :=
  ["alert"; "alertdialog"; "application"; "article"; "banner"; "button"; "cell"; "checkbox";
   "columnheader"; "combobox"; "complementary"; "contentinfo"; "definition"; "dialog"; "directory";
   "document"; "feed"; "figure"; "form"; "grid"; "gridcell"; "group"; "heading"; "img"; "link";
   "list"; "listbox"; "listitem"; "log"; "main"; "marquee"; "math"; "menu"; "menubar"; "menuitem";
   "menuitemcheckbox"; "menuitemradio"; "navigation"; "none"; "note"; "option"; "presentation";
   "progressbar"; "radio"; "radiogroup"; "region"; "row"; "rowgroup"; "rowheader"; "scrollbar";
   "search"; "separator"; "slider"; "spinbutton"; "status"; "switch"; "tab"; "table"; "tablist";
   "tabpanel"; "textbox"; "timer"; "toolbar"; "tooltip"; "tree"; "treegrid"; "treeitem"].

Definition INTERACTIVE_ELEMENTS : list string :=
  ["button"; "input"; "select"; "textarea"; "a"; "area"; "summary"].

Definition checkMissingAriaLabel (line : string) (lineNumber : nat)
  : option AccessibilityIssue :=
  let trimmedLine := trim line in
  let hasInteractiveElement :=
    existsb (fun element => includes trimmedLine ("<" ++ element)
                            || includes trimmedLine ("<" ++ element ++ " "))
            INTERACTIVE_ELEMENTS in
  if hasInteractiveElement then
    let hasAriaLabel := includes trimmedLine "aria-label" || includes trimmedLine "aria-labelledby" in
    let hasTitle := includes trimmedLine "title=" in
    let hasAlt := includes trimmedLine "alt=" in
    (* [let hasVisibleText = false], set to true by either of two ifs *)
    let hasVisibleText :=
      (includes trimmedLine "<button" &&
       match match_tag_content "<button" "</button>" trimmedLine with
       | Some content => (0 <? String.length (trim content))%nat
       | None => false
       end)
      || (includes trimmedLine "<a" &&
          match match_tag_content "<a" "</a>" trimmedLine with
          | Some content => (0 <? String.length (trim content))%nat
          | None => false
          end) in
    let hasAccessibleName := hasAriaLabel || hasTitle || hasAlt || hasVisibleText in
    if negb hasAccessibleName then
      Some (mkIssue (lineNumber + 1)
              "Interactive element missing accessible name (aria-label, aria-labelledby, or visible text)"
              "HIGH" (mkRange lineNumber 0 lineNumber (String.length line)))
    else None
  else None.

Definition checkEmptyAriaLabel (line : string) (lineNumber : nat)
  : option AccessibilityIssue :=
  let trimmedLine := trim line in
  if includes trimmedLine (attr "aria-label" "") || includes trimmedLine "aria-label=''"
     || includes trimmedLine (attr "aria-label" " ") || includes trimmedLine "aria-label=' '" then
    Some (mkIssue (lineNumber + 1) "Empty or whitespace-only aria-label provides no accessible name"
            "HIGH" (mkRange lineNumber 0 lineNumber (String.length line)))
  else None.

Definition checkRedundantAriaLabel (line : string) (lineNumber : nat)
  : option AccessibilityIssue :=
  let trimmedLine := trim line in
  if (includes trimmedLine "<button" || includes trimmedLine "<a")
     && includes trimmedLine "aria-label" && includes trimmedLine ">"
     && includes trimmedLine "</" then
    match match_text_between_tags trimmedLine with
    | Some text =>
        if (0 <? String.length (trim text))%nat then
          Some (mkIssue (lineNumber + 1)
                  "Redundant aria-label when visible text already provides accessible name"
                  "MEDIUM" (mkRange lineNumber 0 lineNumber (String.length line)))
        else None
    | None => None
    end
  else None.

Definition checkInvalidRole (line : string) (lineNumber : nat)
  : option AccessibilityIssue :=
  let trimmedLine := trim line in
  if includes trimmedLine "role=" then
    match match_attr_value "role" trimmedLine with
    | Some r =>
        let role := to_lower r in
        if negb (existsb (String.eqb role) VALID_ROLES) then
          Some (mkIssue (lineNumber + 1)
                  ("Invalid ARIA role " ++ dq ++ role ++ dq ++ " - not a valid ARIA role")
                  "HIGH" (mkRange lineNumber 0 lineNumber (String.length line)))
        else None
    | None => None
    end
  else None.

Definition checkRedundantRole (line : string) (lineNumber : nat)
  : option AccessibilityIssue :=
  let trimmedLine := trim line in
  if includes trimmedLine "role=" then
    match match_attr_value "role" trimmedLine with
    | Some r =>
        let role := to_lower r in
        if (includes trimmedLine "<button" && String.eqb role "button")
           || (includes trimmedLine "<nav" && String.eqb role "navigation")
           || (includes trimmedLine "<main" && String.eqb role "main")
           || (includes trimmedLine "<header" && String.eqb role "banner")
           || (includes trimmedLine "<footer" && String.eqb role "contentinfo")
           || (includes trimmedLine "<section" && String.eqb role "region")
           || (includes trimmedLine "<article" && String.eqb role "article")
           || (includes trimmedLine "<aside" && String.eqb role "complementary") then
          Some (mkIssue (lineNumber + 1)
                  ("Redundant role=" ++ dq ++ role ++ dq
                   ++ " on semantic element - element already has implicit role")
                  "LOW" (mkRange lineNumber 0 lineNumber (String.length line)))
        else None
    | None => None
    end
  else None.

Definition checkMissingAriaLabelledbyReference (line : string) (lineNumber : nat)
  (fullText : string) : option AccessibilityIssue :=
  let trimmedLine := trim line in
  if includes trimmedLine "aria-labelledby=" then
    match match_attr_value "aria-labelledby" trimmedLine with
    | Some referencedId =>
        if negb (includes fullText (attr "id" referencedId))
           && negb (includes fullText ("id='" ++ referencedId ++ "'")) then
          Some (mkIssue (lineNumber + 1)
                  ("aria-labelledby references non-existent element with id="
                   ++ dq ++ referencedId ++ dq)
                  "HIGH" (mkRange lineNumber 0 lineNumber (String.length line)))
        else None
    | None => None
    end
  else None.

Definition checkMissingAriaDescribedbyReference (line : string) (lineNumber : nat)
  (fullText : string) : option AccessibilityIssue :=
  let trimmedLine := trim line in
  if includes trimmedLine "aria-describedby=" then
    match match_attr_value "aria-describedby" trimmedLine with
    | Some referencedId =>
        if negb (includes fullText (attr "id" referencedId))
           && negb (includes fullText ("id='" ++ referencedId ++ "'")) then
          Some (mkIssue (lineNumber + 1)
                  ("aria-describedby references non-existent element with id="
                   ++ dq ++ referencedId ++ dq)
                  "HIGH" (mkRange lineNumber 0 lineNumber (String.length line)))
        else None
    | None => None
    end
  else None.

Definition checkMissingAriaExpanded (line : string) (lineNumber : nat)
  : option AccessibilityIssue :=
  let trimmedLine := trim line in
  if (includes trimmedLine (attr "role" "button") || includes trimmedLine (attr "role" "menuitem"))
     && includes trimmedLine "onclick" && negb (includes trimmedLine "aria-expanded") then
    Some (mkIssue (lineNumber + 1) "Collapsible element missing aria-expanded attribute"
            "MEDIUM" (mkRange lineNumber 0 lineNumber (String.length line)))
  else None.

Definition checkIncorrectAriaExpanded (line : string) (lineNumber : nat)
  : option AccessibilityIssue :=
  let trimmedLine := trim line in
  if includes trimmedLine "aria-expanded=" then
    match match_attr_value "aria-expanded" trimmedLine with
    | Some v =>
        let value := to_lower v in
        if negb (String.eqb value "true") && negb (String.eqb value "false") then
          Some (mkIssue (lineNumber + 1)
                  ("Invalid aria-expanded value " ++ dq ++ value ++ dq ++ " - must be "
                   ++ dq ++ "true" ++ dq ++ " or " ++ dq ++ "false" ++ dq)
                  "HIGH" (mkRange lineNumber 0 lineNumber (String.length line)))
        else None
    | None => None
    end
  else None.

Definition checkMissingAriaHiddenOnDecorative (line : string) (lineNumber : nat)
  : option AccessibilityIssue :=
  let trimmedLine := trim line in
  if includes trimmedLine "<img"
     && (includes trimmedLine "decorative" || includes trimmedLine "ornament"
         || includes trimmedLine "spacer" || includes trimmedLine "divider")
     && negb (includes trimmedLine (attr "aria-hidden" "true")) then
    Some (mkIssue (lineNumber + 1)
            ("Decorative image should have " ++ attr "aria-hidden" "true")
            "MEDIUM" (mkRange lineNumber 0 lineNumber (String.length line)))
  else None.

Definition checkConflictingAriaHiddenAndRole (line : string) (lineNumber : nat)
  : option AccessibilityIssue :=
  let trimmedLine := trim line in
  if includes trimmedLine (attr "aria-hidden" "true") && includes trimmedLine "role=" then
    Some (mkIssue (lineNumber + 1)
            ("Element with " ++ attr "aria-hidden" "true" ++ " should not have a role attribute")
            "HIGH" (mkRange lineNumber 0 lineNumber (String.length line)))
  else None.

Definition checkMissingAriaDisabled (line : string) (lineNumber : nat)
  : option AccessibilityIssue :=
  let trimmedLine := trim line in
  if (includes trimmedLine "disabled" || includes trimmedLine "readonly")
     && negb (includes trimmedLine "aria-disabled")
     && (includes trimmedLine "<input" || includes trimmedLine "<button"
         || includes trimmedLine "<select") then
    Some (mkIssue (lineNumber + 1)
            ("Disabled element should have " ++ attr "aria-disabled" "true" ++ " for screen readers")
            "MEDIUM" (mkRange lineNumber 0 lineNumber (String.length line)))
  else None.

Definition checkMissingAriaRequired (line : string) (lineNumber : nat)
  : option AccessibilityIssue :=
  let trimmedLine := trim line in
  if (includes trimmedLine "required" || includes trimmedLine (attr "aria-required" "true"))
     && negb (includes trimmedLine "aria-required")
     && (includes trimmedLine "<input" || includes trimmedLine "<select"
         || includes trimmedLine "<textarea") then
    Some (mkIssue (lineNumber + 1)
            ("Required form element should have " ++ attr "aria-required" "true")
            "MEDIUM" (mkRange lineNumber 0 lineNumber (String.length line)))
  else None.

Definition checkMissingAriaInvalid (line : string) (lineNumber : nat)
  : option AccessibilityIssue :=
  let trimmedLine := trim line in
  if (includes trimmedLine "error" || includes trimmedLine "invalid"
      || includes trimmedLine (attr "class" "error"))
     && negb (includes trimmedLine "aria-invalid")
     && (includes trimmedLine "<input" || includes trimmedLine "<select"
         || includes trimmedLine "<textarea") then
    Some (mkIssue (lineNumber + 1)
            ("Form element with validation error should have " ++ attr "aria-invalid" "true")
            "MEDIUM" (mkRange lineNumber 0 lineNumber (String.length line)))
  else None.

Definition checkEmptyButtonElements (line : string) (lineNumber : nat)
  : option AccessibilityIssue :=
  let trimmedLine := trim line in
  if includes trimmedLine "<button" && includes trimmedLine "</button>" then
    match match_tag_content "<button" "</button>" trimmedLine with
    | Some c =>
        let content := trim c in
        if Nat.eqb (String.length content) 0 || all_ws content then
          let hasAccessibleName := includes trimmedLine "aria-label"
                                   || includes trimmedLine "aria-labelledby"
                                   || includes trimmedLine "title=" in
          if negb hasAccessibleName then
            Some (mkIssue (lineNumber + 1)
                    "Empty button element needs accessible name (aria-label, aria-labelledby, or visible text)"
                    "HIGH" (mkRange lineNumber 0 lineNumber (String.length line)))
          else None
        else None
    | None => None
    end
  else None.

Definition checkAriaLabelAndRole (line : string) (lineNumber : nat) (fullText : string)
  : list AccessibilityIssue :=
  collect [checkMissingAriaLabel line lineNumber;
           checkEmptyAriaLabel line lineNumber;
           checkRedundantAriaLabel line lineNumber;
           checkInvalidRole line lineNumber;
           checkRedundantRole line lineNumber;
           checkMissingAriaLabelledbyReference line lineNumber fullText;
           checkMissingAriaDescribedbyReference line lineNumber fullText;
           checkMissingAriaExpanded line lineNumber;
           checkIncorrectAriaExpanded line lineNumber;
           checkMissingAriaHiddenOnDecorative line lineNumber;
           checkConflictingAriaHiddenAndRole line lineNumber;
           checkMissingAriaDisabled line lineNumber;
           checkMissingAriaRequired line lineNumber;
           checkMissingAriaInvalid line lineNumber;
           checkEmptyButtonElements line lineNumber].

End AriaLabelRoleChecker.

(* ------------------------------------------------------------------ *)
(** ** TabIndexChecker *)

Module TabIndexChecker.

Definition NATURALLY_FOCUSABLE : list string :=
  ["button"; "input"; "select"; "textarea"; "a"; "area"; "summary"; "details"].

Definition NON_FOCUSABLE : list string :=
  ["div"; "span"; "p"; "h1"; "h2"; "h3"; "h4"; "h5"; "h6"; "img"; "br"; "hr"].

(** [/tabindex=Q(-[0-9]+)Q/], group 1. *)
Definition match_negative_tabindex (s : string) : option string :=
  search (fun t =>
    match strip_prefix "tabindex=" t with
    | Some (String q (String m r)) =>
        if is_quote q && char_is 45 m then
          let (digits, r') := span is_digit r in
          match r' with
          | String q' _ =>
              if nonempty digits && is_quote q' then Some (String m digits) else None
          | EmptyString => None
          end
        else None
    | _ => None
    end) s.

(** [/tabindex=Q(D)Q/], group 1, where D is the source's [[1-9][0-9]*]
    (a nonzero digit, then any digits). *)
Definition match_positive_tabindex (s : string) : option string :=
  search (fun t =>
    match strip_prefix "tabindex=" t with
    | Some (String q (String d r)) =>
        if is_quote q && is_digit d && negb (char_is 48 d) then
          let (digits, r') := span is_digit r in
          match r' with
          | String q' _ => if is_quote q' then Some (String d digits) else None
          | EmptyString => None
          end
        else None
    | _ => None
    end) s.

Definition checkNegativeTabIndex (line : string) (lineNumber : nat)
  : option AccessibilityIssue :=
  let trimmedLine := trim line in
  match match_negative_tabindex trimmedLine with
  | Some tabIndexValue =>
      Some (mkIssue (lineNumber + 1)
              ("Negative tabindex=" ++ dq ++ tabIndexValue ++ dq
               ++ " removes element from tab order - ensure this is intentional")
              "HIGH" (mkRange lineNumber 0 lineNumber (String.length line)))
  | None => None
  end.

Definition checkTabIndexZeroOnNonInteractive (line : string) (lineNumber : nat)
  : option AccessibilityIssue :=
  let trimmedLine := trim line in
  if includes trimmedLine (attr "tabindex" "0") || includes trimmedLine "tabindex='0'" then
    let isNonInteractive :=
      existsb (fun element => includes trimmedLine ("<" ++ element)
                              && negb (includes trimmedLine "role=")) NON_FOCUSABLE in
    if isNonInteractive then
      Some (mkIssue (lineNumber + 1)
              ("Non-interactive element with " ++ attr "tabindex" "0"
               ++ " - add role attribute or use semantic element")
              "HIGH" (mkRange lineNumber 0 lineNumber (String.length line)))
    else None
  else None.

Definition checkMissingTabIndexOnCustomInteractive (line : string) (lineNumber : nat)
  : option AccessibilityIssue :=
  let trimmedLine := trim line in
  let hasInteractiveRole :=
    includes trimmedLine (attr "role" "button") || includes trimmedLine (attr "role" "link")
    || includes trimmedLine (attr "role" "menuitem") || includes trimmedLine (attr "role" "tab")
    || includes trimmedLine (attr "role" "option") || includes trimmedLine (attr "role" "checkbox") in
  if hasInteractiveRole && negb (includes trimmedLine "tabindex=") then
    Some (mkIssue (lineNumber + 1)
            ("Custom interactive element missing tabindex - add " ++ attr "tabindex" "0"
             ++ " for keyboard accessibility")
            "HIGH" (mkRange lineNumber 0 lineNumber (String.length line)))
  else None.

Definition checkRedundantTabIndexOnFocusable (line : string) (lineNumber : nat)
  : option AccessibilityIssue :=
  let trimmedLine := trim line in
  let isNaturallyFocusable :=
    existsb (fun element => includes trimmedLine ("<" ++ element)) NATURALLY_FOCUSABLE in
  if isNaturallyFocusable && includes trimmedLine "tabindex=" then
    Some (mkIssue (lineNumber + 1)
            "Redundant tabindex on naturally focusable element - remove unless changing tab order"
            "MEDIUM" (mkRange lineNumber 0 lineNumber (String.length line)))
  else None.

Definition checkPositiveTabIndex (line : string) (lineNumber : nat)
  : option AccessibilityIssue :=
  let trimmedLine := trim line in
  match match_positive_tabindex trimmedLine with
  | Some tabIndexValue =>
      Some (mkIssue (lineNumber + 1)
              ("Positive tabindex=" ++ dq ++ tabIndexValue ++ dq
               ++ " disrupts natural tab order - use " ++ attr "tabindex" "0"
               ++ " or negative values only")
              "MEDIUM" (mkRange lineNumber 0 lineNumber (String.length line)))
  | None => None
  end.

Definition checkMissingTabIndexOnClickable (line : string) (lineNumber : nat)
  : option AccessibilityIssue :=
  let trimmedLine := trim line in
  if (includes trimmedLine "onclick" || includes trimmedLine "onkeydown")
     && negb (includes trimmedLine "tabindex=")
     && (includes trimmedLine "<div" || includes trimmedLine "<span") then
    Some (mkIssue (lineNumber + 1)
            ("Clickable element missing tabindex - add " ++ attr "tabindex" "0"
             ++ " for keyboard accessibility")
            "MEDIUM" (mkRange lineNumber 0 lineNumber (String.length line)))
  else None.

Definition checkDisabledElementWithTabIndex (line : string) (lineNumber : nat)
  : option AccessibilityIssue :=
  let trimmedLine := trim line in
  if (includes trimmedLine "disabled" || includes trimmedLine (attr "aria-disabled" "true"))
     && includes trimmedLine "tabindex=" then
    Some (mkIssue (lineNumber + 1)
            ("Disabled element should not be focusable - remove tabindex or use "
             ++ attr "tabindex" "-1")
            "MEDIUM" (mkRange lineNumber 0 lineNumber (String.length line)))
  else None.

Definition checkTabIndexOnHiddenElement (line : string) (lineNumber : nat)
  : option AccessibilityIssue :=
  let trimmedLine := trim line in
  if (includes trimmedLine "hidden" || includes trimmedLine (attr "aria-hidden" "true")
      || includes trimmedLine (attr "style" "display: none")
      || includes trimmedLine (attr "style" "visibility: hidden"))
     && includes trimmedLine "tabindex=" then
    Some (mkIssue (lineNumber + 1)
            ("Hidden element should not be focusable - remove tabindex or use "
             ++ attr "tabindex" "-1")
            "MEDIUM" (mkRange lineNumber 0 lineNumber (String.length line)))
  else None.

Definition checkTabIndexOnDecorativeElement (line : string) (lineNumber : nat)
  : option AccessibilityIssue :=
  let trimmedLine := trim line in
  if (includes trimmedLine "decorative" || includes trimmedLine "ornament"
      || includes trimmedLine "spacer" || includes trimmedLine "divider")
     && includes trimmedLine "tabindex=" then
    Some (mkIssue (lineNumber + 1)
            ("Decorative element should not be focusable - remove tabindex or use "
             ++ attr "tabindex" "-1")
            "LOW" (mkRange lineNumber 0 lineNumber (String.length line)))
  else None.

Definition checkInconsistentTabIndexUsage (line : string) (lineNumber : nat)
  : option AccessibilityIssue :=
  let trimmedLine := trim line in
  if includes trimmedLine "tabindex=" then
    match match_attr_value "tabindex" trimmedLine with
    | Some tabIndexValue =>
        if String.eqb tabIndexValue "1" || String.eqb tabIndexValue "2"
           || String.eqb tabIndexValue "3" then
          Some (mkIssue (lineNumber + 1)
                  ("Low positive tabindex=" ++ dq ++ tabIndexValue ++ dq
                   ++ " may cause confusion - consider using " ++ attr "tabindex" "0"
                   ++ " or negative values")
                  "LOW" (mkRange lineNumber 0 lineNumber (String.length line)))
        else None
    | None => None
    end
  else None.

(** The condition is [a || b || c && d] in the source, that is
    [a || b || (c && d)]. *)
Definition checkMissingTabIndexOnModalTrigger (line : string) (lineNumber : nat)
  : option AccessibilityIssue :=
  let trimmedLine := trim line in
  if (includes trimmedLine (attr "data-toggle" "modal")
      || includes trimmedLine (attr "data-bs-toggle" "modal")
      || (includes trimmedLine "onclick" && includes trimmedLine "modal"))
     && negb (includes trimmedLine "tabindex=")
     && (includes trimmedLine "<div" || includes trimmedLine "<span") then
    Some (mkIssue (lineNumber + 1)
            ("Modal trigger element missing tabindex - add " ++ attr "tabindex" "0"
             ++ " for keyboard accessibility")
            "MEDIUM" (mkRange lineNumber 0 lineNumber (String.length line)))
  else None.

Definition checkTabIndexOnPresentationRole (line : string) (lineNumber : nat)
  : option AccessibilityIssue :=
  let trimmedLine := trim line in
  if includes trimmedLine (attr "role" "presentation") && includes trimmedLine "tabindex=" then
    Some (mkIssue (lineNumber + 1)
            ("Element with " ++ attr "role" "presentation" ++ " should not be focusable - remove tabindex")
            "HIGH" (mkRange lineNumber 0 lineNumber (String.length line)))
  else None.

Definition checkTabIndexOnNoneRole (line : string) (lineNumber : nat)
  : option AccessibilityIssue :=
  let trimmedLine := trim line in
  if includes trimmedLine (attr "role" "none") && includes trimmedLine "tabindex=" then
    Some (mkIssue (lineNumber + 1)
            ("Element with " ++ attr "role" "none" ++ " should not be focusable - remove tabindex")
            "HIGH" (mkRange lineNumber 0 lineNumber (String.length line)))
  else None.

Definition checkTabIndexOnAriaHidden (line : string) (lineNumber : nat)
  : option AccessibilityIssue :=
  let trimmedLine := trim line in
  if includes trimmedLine (attr "aria-hidden" "true") && includes trimmedLine "tabindex=" then
    Some (mkIssue (lineNumber + 1)
            ("Element with " ++ attr "aria-hidden" "true" ++ " should not be focusable - remove tabindex")
            "HIGH" (mkRange lineNumber 0 lineNumber (String.length line)))
  else None.

Definition checkMissingTabIndexOnCustomFormControl (line : string) (lineNumber : nat)
  : option AccessibilityIssue :=
  let trimmedLine := trim line in
  if (includes trimmedLine (attr "role" "combobox") || includes trimmedLine (attr "role" "slider")
      || includes trimmedLine (attr "role" "spinbutton"))
     && negb (includes trimmedLine "tabindex=") then
    Some (mkIssue (lineNumber + 1)
            ("Custom form control missing tabindex - add " ++ attr "tabindex" "0"
             ++ " for keyboard accessibility")
            "MEDIUM" (mkRange lineNumber 0 lineNumber (String.length line)))
  else None.

Definition checkTabIndexOnNonInteractiveElement (line : string) (lineNumber : nat)
  : option AccessibilityIssue :=
  let trimmedLine := trim line in
  if (includes trimmedLine "<p" || includes trimmedLine "<h1" || includes trimmedLine "<h2"
      || includes trimmedLine "<h3" || includes trimmedLine "<h4" || includes trimmedLine "<h5"
      || includes trimmedLine "<h6" || includes trimmedLine "<img")
     && includes trimmedLine "tabindex=" && negb (includes trimmedLine "role=") then
    Some (mkIssue (lineNumber + 1)
            "Non-interactive element with tabindex - consider if this element should be focusable"
            "LOW" (mkRange lineNumber 0 lineNumber (String.length line)))
  else None.

Definition checkTabIndex (line : string) (lineNumber : nat) : list AccessibilityIssue :=
  collect [checkNegativeTabIndex line lineNumber;
           checkTabIndexZeroOnNonInteractive line lineNumber;
           checkMissingTabIndexOnCustomInteractive line lineNumber;
           checkTabIndexOnPresentationRole line lineNumber;
           checkTabIndexOnNoneRole line lineNumber;
           checkTabIndexOnAriaHidden line lineNumber;
           checkRedundantTabIndexOnFocusable line lineNumber;
           checkPositiveTabIndex line lineNumber;
           checkMissingTabIndexOnClickable line lineNumber;
           checkDisabledElementWithTabIndex line lineNumber;
           checkTabIndexOnHiddenElement line lineNumber;
           checkMissingTabIndexOnModalTrigger line lineNumber;
           checkMissingTabIndexOnCustomFormControl line lineNumber;
           checkTabIndexOnDecorativeElement line lineNumber;
           checkInconsistentTabIndexUsage line lineNumber;
           checkTabIndexOnNonInteractiveElement line lineNumber].

End TabIndexChecker.

(* ------------------------------------------------------------------ *)
(** ** SemanticHtmlChecker *)

(** [(s.match(/OPEN[^>]*>/g) || []).length]: matches are counted left to
    right without overlap, resuming after each match.  [fuel] bounds the
    number of steps; every step consumes at least one character. *)
Fixpoint count_open_tags (fuel : nat) (open s : string) : nat :=
  match fuel with
  | O => O
  | S f =>
      match open_tag open s with
      | Some rest => S (count_open_tags f open rest)
      | None =>
          match s with
          | EmptyString => O
          | String _ s' => count_open_tags f open s'
          end
      end
  end.

Definition count_h1 (s : string) : nat := count_open_tags (S (String.length s)) "<h1" s.

(** [/<h([1-6])[^>]*>/], group 1 (the level digit). *)
Definition match_heading (s : string) : option ascii :=
  search (fun t =>
    match strip_prefix "<h" t with
    | Some (String d r) =>
        if ((49 <=? nat_of_ascii d) && (nat_of_ascii d <=? 54))%nat then
          match snd (span (not_char 62) r) with
          | String c _ => if char_is 62 c then Some d else None
          | EmptyString => None
          end
        else None
    | _ => None
    end) s.

(** [/OPEN[^>]*>.*CLOSE/] used as a truth value.  Whether a match exists
    does not depend on [.*] being greedy or lazy, so the lazy matcher
    decides it. *)
Definition has_tag_with_content (open close s : string) : bool :=
  match match_tag_content open close s with Some _ => true | None => false end.

Module SemanticHtmlChecker.

Definition checkHeadingHierarchy (line : string) (lineNumber : nat) (fullText : string)
  : option AccessibilityIssue :=
  let trimmedLine := trim line in
  if includes trimmedLine "<h1>" && (1 <? count_h1 fullText)%nat then
    Some (mkIssue (lineNumber + 1)
            "Multiple h1 tags found - page should have only one h1 for proper document structure"
            "HIGH" (mkRange lineNumber 0 lineNumber (String.length line)))
  else
    match match_heading trimmedLine with
    | Some d =>
        (* [parseInt(headingMatch[1]) > 1] *)
        if negb (char_is 49 d) then
          Some (mkIssue (lineNumber + 1)
                  ("Heading h" ++ String d EmptyString
                   ++ " detected - ensure proper heading hierarchy (h1 → h2 → h3, etc.)")
                  "MEDIUM" (mkRange lineNumber 0 lineNumber (String.length line)))
        else None
    | None => None
    end.

Definition checkHtmlLangAttribute (line : string) (lineNumber : nat)
  : option AccessibilityIssue :=
  let trimmedLine := trim line in
  if includes trimmedLine "<html" && negb (includes trimmedLine "lang=") then
    Some (mkIssue (lineNumber + 1)
            "Missing lang attribute on html tag - required for screen readers and language detection"
            "HIGH" (mkRange lineNumber 0 lineNumber (String.length line)))
  else None.

Definition checkListStructure (line : string) (lineNumber : nat)
  : option AccessibilityIssue :=
  let trimmedLine := trim line in
  if includes trimmedLine "<li>" && negb (includes trimmedLine "<ul")
     && negb (includes trimmedLine "<ol") then
    Some (mkIssue (lineNumber + 1) "List item (li) found without proper list container (ul/ol)"
            "HIGH" (mkRange lineNumber 0 lineNumber (String.length line)))
  else if includes trimmedLine "<ul" && includes trimmedLine "<ol" then
    Some (mkIssue (lineNumber + 1) "Mixed list types (ul and ol) in same line - ensure proper nesting"
            "MEDIUM" (mkRange lineNumber 0 lineNumber (String.length line)))
  else None.

Definition checkTableStructure (line : string) (lineNumber : nat)
  : option AccessibilityIssue :=
  let trimmedLine := trim line in
  if includes trimmedLine "<td>" && negb (includes trimmedLine "<table")
     && negb (includes trimmedLine "<tr") then
    Some (mkIssue (lineNumber + 1)
            "Table cell (td) found without proper table structure (table > tr > td)"
            "HIGH" (mkRange lineNumber 0 lineNumber (String.length line)))
  else if includes trimmedLine "<th>" && negb (includes trimmedLine "<table")
          && negb (includes trimmedLine "<tr") then
    Some (mkIssue (lineNumber + 1)
            "Table header (th) found without proper table structure (table > tr > th)"
            "HIGH" (mkRange lineNumber 0 lineNumber (String.length line)))
  else if includes trimmedLine "<table" && negb (includes trimmedLine "caption")
          && negb (includes trimmedLine "summary") then
    Some (mkIssue (lineNumber + 1)
            "Table missing caption or summary - add caption for table description"
            "MEDIUM" (mkRange lineNumber 0 lineNumber (String.length line)))
  else None.

Definition checkFormStructure (line : string) (lineNumber : nat)
  : option AccessibilityIssue :=
  let trimmedLine := trim line in
  if (includes trimmedLine "<input" || includes trimmedLine "<select"
      || includes trimmedLine "<textarea")
     && negb (includes trimmedLine "aria-label") && negb (includes trimmedLine "aria-labelledby")
     && negb (includes trimmedLine "<label") then
    Some (mkIssue (lineNumber + 1)
            "Form control missing label - add label, aria-label, or aria-labelledby"
            "HIGH" (mkRange lineNumber 0 lineNumber (String.length line)))
  else if includes trimmedLine "<fieldset" && negb (includes trimmedLine "<legend") then
    Some (mkIssue (lineNumber + 1)
            "Fieldset missing legend - add legend to describe fieldset purpose"
            "HIGH" (mkRange lineNumber 0 lineNumber (String.length line)))
  else None.

Definition checkButtonUsage (line : string) (lineNumber : nat)
  : option AccessibilityIssue :=
  let trimmedLine := trim line in
  if (includes trimmedLine "<div" || includes trimmedLine "<span")
     && includes trimmedLine "onclick" && negb (includes trimmedLine (attr "role" "button")) then
    Some (mkIssue (lineNumber + 1)
            "Use semantic button element instead of div/span with onclick for better accessibility"
            "HIGH" (mkRange lineNumber 0 lineNumber (String.length line)))
  else if includes trimmedLine "<button" && negb (includes trimmedLine "aria-label")
          && negb (includes trimmedLine "aria-labelledby")
          && negb (has_tag_with_content "<button" "</button>" trimmedLine) then
    Some (mkIssue (lineNumber + 1) "Button missing accessible text - add text content or aria-label"
            "HIGH" (mkRange lineNumber 0 lineNumber (String.length line)))
  else None.

Definition checkLinkUsage (line : string) (lineNumber : nat)
  : option AccessibilityIssue :=
  let trimmedLine := trim line in
  if includes trimmedLine "<a" && negb (includes trimmedLine "aria-label")
     && negb (includes trimmedLine "aria-labelledby")
     && negb (has_tag_with_content "<a" "</a>" trimmedLine) then
    Some (mkIssue (lineNumber + 1) "Link missing accessible text - add text content or aria-label"
            "HIGH" (mkRange lineNumber 0 lineNumber (String.length line)))
  else if includes trimmedLine "<a"
          && (includes trimmedLine ">click here<" || includes trimmedLine ">read more<"
              || includes trimmedLine ">here<" || includes trimmedLine ">more<") then
    Some (mkIssue (lineNumber + 1)
            ("Link text is not descriptive - use meaningful link text instead of "
             ++ dq ++ "click here" ++ dq ++ " or " ++ dq ++ "read more" ++ dq)
            "MEDIUM" (mkRange lineNumber 0 lineNumber (String.length line)))
  else None.

Definition checkLandmarkUsage (line : string) (lineNumber : nat)
  : option AccessibilityIssue :=
  let trimmedLine := trim line in
  if includes trimmedLine "<body" && negb (includes trimmedLine (attr "role" "main"))
     && negb (includes trimmedLine "<main") then
    Some (mkIssue (lineNumber + 1)
            ("Page missing main landmark - add <main> or " ++ attr "role" "main"
             ++ " for primary content")
            "MEDIUM" (mkRange lineNumber 0 lineNumber (String.length line)))
  else if includes trimmedLine "<main" || includes trimmedLine (attr "role" "main") then
    Some (mkIssue (lineNumber + 1)
            "Main landmark detected - ensure only one main landmark per page"
            "MEDIUM" (mkRange lineNumber 0 lineNumber (String.length line)))
  else None.

Definition checkSectioningElements (line : string) (lineNumber : nat)
  : option AccessibilityIssue :=
  let trimmedLine := trim line in
  if (includes trimmedLine "<section" || includes trimmedLine "<article")
     && negb (includes trimmedLine "<h1") && negb (includes trimmedLine "<h2")
     && negb (includes trimmedLine "<h3") && negb (includes trimmedLine "<h4")
     && negb (includes trimmedLine "<h5") && negb (includes trimmedLine "<h6") then
    Some (mkIssue (lineNumber + 1)
            "Section/article should have a heading to describe its purpose"
            "MEDIUM" (mkRange lineNumber 0 lineNumber (String.length line)))
  else None.

Definition checkNavigationStructure (line : string) (lineNumber : nat)
  : option AccessibilityIssue :=
  let trimmedLine := trim line in
  if includes trimmedLine "<nav" && negb (includes trimmedLine "<ul")
     && negb (includes trimmedLine "<ol") then
    Some (mkIssue (lineNumber + 1)
            "Navigation should use list structure (ul/ol) for better screen reader support"
            "MEDIUM" (mkRange lineNumber 0 lineNumber (String.length line)))
  else None.

Definition checkDocumentStructure (line : string) (lineNumber : nat) (fullText : string)
  : option AccessibilityIssue :=
  let trimmedLine := trim line in
  if includes trimmedLine "<head" && negb (includes fullText "<title>") then
    Some (mkIssue (lineNumber + 1)
            "Document missing title element - add <title> for page identification"
            "HIGH" (mkRange lineNumber 0 lineNumber (String.length line)))
  else if includes trimmedLine "<head" && negb (includes fullText "viewport") then
    Some (mkIssue (lineNumber + 1)
            "Missing viewport meta tag - add for responsive design and mobile accessibility"
            "MEDIUM" (mkRange lineNumber 0 lineNumber (String.length line)))
  else None.

Definition checkSemanticHtml (line : string) (lineNumber : nat) (fullText : string)
  : list AccessibilityIssue :=
  collect [checkHeadingHierarchy line lineNumber fullText;
           checkHtmlLangAttribute line lineNumber;
           checkListStructure line lineNumber;
           checkTableStructure line lineNumber;
           checkFormStructure line lineNumber;
           checkButtonUsage line lineNumber;
           checkLinkUsage line lineNumber;
           checkLandmarkUsage line lineNumber;
           checkSectioningElements line lineNumber;
           checkNavigationStructure line lineNumber;
           checkDocumentStructure line lineNumber fullText].

End SemanticHtmlChecker.

(* ------------------------------------------------------------------ *)
(** ** AccessibilityChecker *)

(** [vscode.DiagnosticSeverity]. *)
Inductive DiagnosticSeverity := Error | Warning | Information | Hint.

(** [vscode.Diagnostic] as built by [createDiagnostic]. *)
Record Diagnostic := mkDiagnostic {
  diag_range : Range; message : string; diag_severity : DiagnosticSeverity; source : string }.

Module AccessibilityChecker.

(** [getSeverity]: the [switch] with its [default] branch. *)
Definition getSeverity (severity : string) : DiagnosticSeverity :=
  if String.eqb severity "HIGH" then Error
  else if String.eqb severity "MEDIUM" then Warning
  else if String.eqb severity "LOW" then Information
  else Information.

Definition createDiagnostic (range : Range) (message : string) (severity : DiagnosticSeverity)
  : Diagnostic :=
  mkDiagnostic range message severity "MARSA11Y Checker".

(** Body of [lines.forEach((line, index) => ...)]: the six family runners
    and their concatenation [allIssues]. *)
Definition allIssues (line : string) (lineNumber : nat) (text : string)
  : list AccessibilityIssue :=
  let imageIssues := ImageChecker.checkImages line lineNumber in
  let formIssues := FormElementsChecker.checkFormElements line lineNumber in
  let otherIssues := OtherAccessibilityChecker.checkOtherAccessibility line lineNumber text in
  let ariaRoleIssues := AriaLabelRoleChecker.checkAriaLabelAndRole line lineNumber text in
  let tabIndexIssues := TabIndexChecker.checkTabIndex line lineNumber in
  let semanticHtmlIssues := SemanticHtmlChecker.checkSemanticHtml line lineNumber text in
  imageIssues ++ formIssues ++ otherIssues ++ ariaRoleIssues ++ tabIndexIssues
  ++ semanticHtmlIssues.

(** [lines.forEach] from index [index] on, pushing onto [issues]. *)
Fixpoint forEachLine (lines : list string) (index : nat) (text : string)
  : list AccessibilityIssue :=
  match lines with
  | [] => []
  | line :: rest => allIssues line index text ++ forEachLine rest (S index) text
  end.

(** [checkAccessibilityIssues]: the [issues] array it collects and the
    [diagnostics] it hands to [diagnosticCollection.set]; the console output
    is left out. *)
Definition checkAccessibilityIssues (text : string)
  : list AccessibilityIssue * list Diagnostic :=
  let lines := split_nl text in
  let issues := forEachLine lines 0 text in
  let diagnostics :=
    map (fun i => createDiagnostic (range i) (issue i) (getSeverity (severity i))) issues in
  (issues, diagnostics).

End AccessibilityChecker.

(* ------------------------------------------------------------------ *)
(** ** AltTagAutoFixer *)

Definition nl : string := String "010"%char EmptyString.

(** The suffixes of [s] after dropping [0, 1, ..., n] characters. *)
Fixpoint suffixes_upto (n : nat) (s : string) : list string :=
  match n, s with
  | S n', String _ s' => s :: suffixes_upto n' s'
  | _, _ => [s]
  end.

Fixpoint find_some {A B : Type} (f : A -> option B) (l : list A) : option B :=
  match l with
  | [] => None
  | x :: xs => match f x with Some b => Some b | None => find_some f xs end
  end.

(** [/<img[^>]*src=Q([^Q]+)Q[^>]*>/i], group 1.  The run [[^>]*] before
    [src=] is greedy, so the longest candidate is tried first. *)
Definition match_img_src (s : string) : option string :=
  search (fun t =>
    match strip_prefix_ci "<img" t with
    | Some r =>
        let run := fst (span (not_char 62) r) in
        find_some (fun rest =>
          match strip_prefix_ci "src=" rest with
          | Some r2 =>
              match quoted_value r2 with
              | Some (v, r3) =>
                  match snd (span (not_char 62) r3) with
                  | String c _ => if char_is 62 c then Some v else None
                  | EmptyString => None
                  end
              | None => None
              end
          | None => None
          end) (rev (suffixes_upto (String.length run) r))
    | None => None
    end) s.

(** [vscode.WorkspaceEdit] holding one [edit.replace(uri, range, newText)]. *)
Record WorkspaceEdit := mkEdit { edit_range : Range; newText : string }.

Module AltTagAutoFixer.

(** [interface AltFixResult { success; altText?; error? }]. *)
Record AltFixResult := mkResult {
  success : bool; altText : option string; error : option string }.

(** What [openai.chat.completions.create] does: it throws, or it answers
    and [completion.choices[0]?.message?.content] is present or not. *)
Inductive CompletionOutcome :=
| Threw (err : string)
| Answered (content : option string).

(** The environment the fixer runs in: the cached client, the configured
    API key, whether [new OpenAI(...)] succeeds, and the remote model. *)
Record Env := mkEnv {
  openai : bool;
  apiKey : option string;
  client_constructs : bool;
  complete : string -> CompletionOutcome }.

(** [initializeOpenAI]. *)
Definition initializeOpenAI (env : Env) : bool :=
  if openai env then true
  else match apiKey env with
       | None | Some EmptyString => false
       | Some _ => client_constructs env
       end.

(** [buildPrompt(imageSrc)] with no context, as [fixSpecificImageTag] calls it. *)
Definition buildPrompt (imageSrc : string) : string :=
  "Generate alt text for this image: " ++ imageSrc ++ nl ++ nl
  ++ "Provide a concise, descriptive alt text that describes what the image shows. If the image is purely decorative, return "
  ++ dq ++ "decorative" ++ dq ++ ".".

(** [generateAltText]: every failure is caught and returned as a value. *)
Definition generateAltText (env : Env) (imageSrc : string) : AltFixResult :=
  if negb (initializeOpenAI env) then
    mkResult false None (Some "OpenAI not initialized")
  else
    match complete env (buildPrompt imageSrc) with
    | Threw e => mkResult false None (Some ("OpenAI API error: " ++ e))
    | Answered content =>
        match option_map trim content with
        | Some altText =>
            if nonempty altText then mkResult true (Some altText) None
            else mkResult false None (Some "No alt text generated")
        | None => mkResult false None (Some "No alt text generated")
        end
    end.

(** [fixSpecificImageTag]; [None] is the [null] the source returns. *)
Definition fixSpecificImageTag (env : Env) (lineNumber : nat) (lineText : string)
  : option WorkspaceEdit :=
  let trimmedLine := trim lineText in
  if negb (includes trimmedLine "<img") || includes trimmedLine "alt=" then None
  else
    match match_img_src trimmedLine with
    | None => None
    | Some imageSrc =>
        let result := generateAltText env imageSrc in
        (* [!result.success || !result.altText], then [showErrorMessage] *)
        match success result, altText result with
        | true, Some alt =>
            if negb (nonempty alt) then None
            else
              match String.index 0 "<img" lineText with
              | None => None
              | Some imgTagStart =>
                  match String.index imgTagStart ">" lineText with
                  | None => None
                  | Some imgTagEnd =>
                      let beforeAlt := substring 0 imgTagEnd lineText in
                      let afterAlt :=
                        substring imgTagEnd (String.length lineText - imgTagEnd) lineText in
                      let newLine := beforeAlt ++ " alt=" ++ dq ++ alt ++ dq ++ afterAlt in
                      Some (mkEdit (mkRange lineNumber 0 lineNumber (String.length lineText))
                              newLine)
                  end
              end
        | _, _ => None
        end
    end.

(** The caller ([ImageChecker.autoFixSpecificImage]): [if (edit)
    workspace.applyEdit(edit)].  The document is its list of lines; an edit
    whose range spans line [n] replaces that line. *)
Fixpoint replace_line (lines : list string) (n : nat) (text : string) : list string :=
  match lines, n with
  | [], _ => []
  | _ :: ls, O => text :: ls
  | l :: ls, S n' => l :: replace_line ls n' text
  end.

Definition applyIfPresent (lines : list string) (edit : option WorkspaceEdit) : list string :=
  match edit with
  | None => lines
  | Some e => replace_line lines (start_line (edit_range e)) (newText e)
  end.

(** [buildPrompt(imageSrc, context)]: [if (context)] skips a missing or
    empty context. *)
Definition buildPrompt_ctx (imageSrc : string) (context : option string) : string :=
  let prompt := "Generate alt text for this image: " ++ imageSrc in
  let prompt :=
    match context with
    | Some c => if nonempty c then prompt ++ nl ++ nl ++ "Context: " ++ c else prompt
    | None => prompt
    end in
  prompt ++ nl ++ nl
  ++ "Provide a concise, descriptive alt text that describes what the image shows. If the image is purely decorative, return "
  ++ dq ++ "decorative" ++ dq ++ ".".

(** [generateAltText(imageSrc, context)]. *)
Definition generateAltText_ctx (env : Env) (imageSrc : string) (context : option string)
  : AltFixResult :=
  if negb (initializeOpenAI env) then
    mkResult false None (Some "OpenAI not initialized")
  else
    match complete env (buildPrompt_ctx imageSrc context) with
    | Threw e => mkResult false None (Some ("OpenAI API error: " ++ e))
    | Answered content =>
        match option_map trim content with
        | Some altText =>
            if nonempty altText then mkResult true (Some altText) None
            else mkResult false None (Some "No alt text generated")
        | None => mkResult false None (Some "No alt text generated")
        end
    end.

(** The remote model over a whole command: [o i p] is its answer to the
    request made for line [i] with prompt [p].  Requests for different
    lines get unrelated answers; the client configuration stays that of
    [env]. *)
Definition Oracle : Type := nat -> string -> CompletionOutcome.

Definition with_complete (env : Env) (answer : string -> CompletionOutcome) : Env :=
  mkEnv (openai env) (apiKey env) (client_constructs env) answer.

(** [lines.slice(a, b)] for [0 <= a]. *)
Definition slice (lines : list string) (a b : nat) : list string :=
  firstn (b - a) (skipn a lines).

(** [xs.join(sep)]. *)
Fixpoint join (sep : string) (xs : list string) : string :=
  match xs with
  | [] => EmptyString
  | [x] => x
  | x :: rest => x ++ sep ++ join sep rest
  end.

(** [lines.slice(Math.max(0, i - 2), i + 3).join(' ').substring(0, 200)]. *)
Definition context_of (lines : list string) (i : nat) : string :=
  substring 0 200 (join " " (slice lines (i - 2) (i + 3))).

(** The line test shared by the batch functions. *)
Definition missing_alt (line : string) : bool :=
  let trimmedLine := trim line in
  includes trimmedLine "<img" && negb (includes trimmedLine "alt=").

(** [getSpecificImagePreview]: [{imageSrc, altText}] or [null]. *)
Definition getSpecificImagePreview (env : Env) (lineText : string) : option (string * string) :=
  let trimmedLine := trim lineText in
  if negb (includes trimmedLine "<img") || includes trimmedLine "alt=" then None
  else
    match match_img_src trimmedLine with
    | None => None
    | Some imageSrc =>
        let result := generateAltText env imageSrc in
        match success result, altText result with
        | true, Some alt => if nonempty alt then Some (imageSrc, alt) else None
        | _, _ => None
        end
    end.

Record Preview := mkPreview { p_lineNumber : nat; p_imageSrc : string; p_altText : string }.

(** The [for] loop of [getMissingAltTagsPreview], from line [i] on. *)
Fixpoint previewsFrom (env : Env) (o : Oracle) (lines : list string) (i : nat)
    (rest : list string) : list Preview :=
  match rest with
  | [] => []
  | line :: rest' =>
      let trimmedLine := trim line in
      let here :=
        if includes trimmedLine "<img" && negb (includes trimmedLine "alt=") then
          match match_img_src trimmedLine with
          | None => []
          | Some imageSrc =>
              let context := context_of lines i in
              let result := generateAltText_ctx (with_complete env (o i)) imageSrc (Some context) in
              match success result, altText result with
              | true, Some alt => if nonempty alt then [mkPreview i imageSrc alt] else []
              | _, _ => []
              end
          end
        else [] in
      here ++ previewsFrom env o lines (S i) rest'
  end.

Definition getMissingAltTagsPreview (env : Env) (o : Oracle) (text : string) : list Preview :=
  let lines := split_nl text in
  previewsFrom env o lines 0 lines.

(** The [for] loop of [autoFixMissingAltTags]: the replacements it adds to
    [edit], in order. *)
Fixpoint autoFixFrom (env : Env) (o : Oracle) (lines : list string) (i : nat)
    (rest : list string) : list WorkspaceEdit :=
  match rest with
  | [] => []
  | line :: rest' =>
      let trimmedLine := trim line in
      let here :=
        if includes trimmedLine "<img" && negb (includes trimmedLine "alt=") then
          match match_img_src trimmedLine with
          | None => []
          | Some imageSrc =>
              let context := context_of lines i in
              let result := generateAltText_ctx (with_complete env (o i)) imageSrc (Some context) in
              match success result, altText result with
              | true, Some alt =>
                  if nonempty alt then
                    match String.index 0 "<img" line with
                    | None => []
                    | Some imgTagStart =>
                        match String.index imgTagStart ">" line with
                        | None => []
                        | Some imgTagEnd =>
                            let beforeAlt := substring 0 imgTagEnd line in
                            let afterAlt :=
                              substring imgTagEnd (String.length line - imgTagEnd) line in
                            let newLine := beforeAlt ++ " alt=" ++ dq ++ alt ++ dq ++ afterAlt in
                            [mkEdit (mkRange i 0 i (String.length line)) newLine]
                        end
                    end
                  else []
              | _, _ => []
              end
          end
        else [] in
      here ++ autoFixFrom env o lines (S i) rest'
  end.

(** [autoFixMissingAltTags]: [hasChanges ? edit : null]. *)
Definition autoFixMissingAltTags (env : Env) (o : Oracle) (text : string)
  : option (list WorkspaceEdit) :=
  let lines := split_nl text in
  match autoFixFrom env o lines 0 lines with
  | [] => None
  | edits => Some edits
  end.

(** [workspace.applyEdit] of several whole-line replacements, one after
    the other (their ranges are distinct lines). *)
Definition applyEdits (lines : list string) (edits : list WorkspaceEdit) : list string :=
  fold_left (fun ls e => replace_line ls (start_line (edit_range e)) (newText e)) edits lines.

End AltTagAutoFixer.

(* ------------------------------------------------------------------ *)
(** ** The two commands of [ImageChecker] (formElementsChecker.ts)

    They call [AltTagAutoFixer], so they are declared after it.  The
    document is the list of its lines, [text.split('\n')]; a replacement
    of line [i] puts its new text in place [i] of that list, and the
    document text is the list joined with newlines. *)

Module ImageCheckerAutoFix.

(** What the commands show: [showInformationMessage] (with the buttons
    offered, for the confirmation) and [showErrorMessage]. *)
Inductive Message :=
| Info (text : string)
| Ask (text : string) (items : list string)
| ShowError (text : string).

(** What the user and the editor do: the button picked ([undefined] is
    [None]), the result of [workspace.applyEdit], and the text of the
    exception [document.lineAt] throws for a line out of range. *)
Record UI := mkUI {
  userChoice : option string; applyEditSucceeds : bool; lineAtError : string }.

Definition chose_apply (ui : UI) : bool :=
  match userChoice ui with
  | Some c => String.eqb c "Yes, Apply Fix"
  | None => false
  end.

(** [`${n}`] for a number [n]. *)
Definition decimal (n : nat) : string := NilZero.string_of_uint (Nat.to_uint n).

(** [previews.map((preview, index) => ...)]. *)
Fixpoint preview_entries (index : nat) (ps : list AltTagAutoFixer.Preview) : list string :=
  match ps with
  | [] => []
  | p :: ps' =>
      (decimal (index + 1) ++ ". " ++ AltTagAutoFixer.p_imageSrc p ++ nl ++ "   → "
       ++ dq ++ AltTagAutoFixer.p_altText p ++ dq)
      :: preview_entries (S index) ps'
  end.

Definition previewText (ps : list AltTagAutoFixer.Preview) : string :=
  AltTagAutoFixer.join (nl ++ nl) (preview_entries 0 ps).

(** [ImageChecker.autoFixMissingAltTags]: the messages shown and the
    document afterwards.  The preview pass and the fix pass each make their
    own requests to the remote model. *)
Definition autoFixMissingAltTags (env : AltTagAutoFixer.Env)
    (o_preview o_fix : AltTagAutoFixer.Oracle) (ui : UI) (text : string)
  : list Message * list string :=
  let lines := split_nl text in
  let missingAltCount :=
    length (filter (fun line =>
              let trimmedLine := trim line in
              includes trimmedLine "<img" && negb (includes trimmedLine "alt=")) lines) in
  if Nat.eqb missingAltCount 0 then
    ([Info "ℹ️ No images with missing alt tags found"], lines)
  else
    let previews := AltTagAutoFixer.getMissingAltTagsPreview env o_preview text in
    match previews with
    | [] => ([Info "ℹ️ No alt text could be generated for the images"], lines)
    | _ =>
        let confirmMessage :=
          "Generated alt text for " ++ decimal (length previews) ++ " image(s):" ++ nl ++ nl
          ++ previewText previews ++ nl ++ nl ++ "Do you want to apply these fixes?" in
        let ask := Ask confirmMessage ["Yes, Apply Fix"; "Cancel"] in
        if negb (chose_apply ui) then ([ask], lines)
        else
          match AltTagAutoFixer.autoFixMissingAltTags env o_fix text with
          | Some edit =>
              if applyEditSucceeds ui then
                ([ask; Info "✅ Alt tags auto-fixed successfully!"],
                 AltTagAutoFixer.applyEdits lines edit)
              else ([ask; ShowError "❌ Failed to apply alt tag fixes"], lines)
          | None => ([ask; Info "ℹ️ No images with missing alt tags found"], lines)
          end
    end.


End ImageCheckerAutoFix.

(* ------------------------------------------------------------------ *)
(** ** The extension's own checker ([activate] in altTagAutoFixer.ts) *)

Module Extension.

(** [s.endsWith(suffix)]. *)
Definition ends_with (s suffix : string) : bool :=
  let n := String.length s in
  let m := String.length suffix in
  (m <=? n)%nat && String.eqb (substring (n - m) m s) suffix.

Definition createDiagnostic (range : Range) (message : string) (severity : DiagnosticSeverity)
  : Diagnostic :=
  mkDiagnostic range message severity "MARSA11Y Checker".

(** One [if]: push the issue and its diagnostic together. *)
Definition push_if (cond : bool) (i : AccessibilityIssue) (severity : DiagnosticSeverity)
  : list (AccessibilityIssue * Diagnostic) :=
  if cond then [(i, createDiagnostic (range i) (issue i) severity)] else [].

(** The body of [lines.forEach((line, index) => ...)]. *)
Definition lineChecks (line : string) (lineNumber : nat) (text : string)
  : list (AccessibilityIssue * Diagnostic) :=
  let trimmedLine := trim line in
  let range := mkRange lineNumber 0 lineNumber (String.length line) in
  push_if (includes trimmedLine "<img" && negb (includes trimmedLine "alt="))
    (mkIssue (lineNumber + 1) "Missing alt attribute on image" "HIGH" range) Error
  ++ push_if (includes trimmedLine ("alt=" ++ dq ++ dq) || includes trimmedLine "alt=''")
    (mkIssue (lineNumber + 1)
       "Empty alt attribute - consider if image is decorative or needs description"
       "MEDIUM" range) Warning
  ++ push_if ((includes trimmedLine "<input" || includes trimmedLine "<textarea"
               || includes trimmedLine "<select")
              && negb (includes trimmedLine "aria-label")
              && negb (includes trimmedLine "aria-labelledby")
              && negb (includes trimmedLine "id=") && negb (includes trimmedLine "placeholder="))
    (mkIssue (lineNumber + 1) "Form input missing label, aria-label, or aria-labelledby"
       "HIGH" range) Error
  ++ (if includes trimmedLine "<h1>" || includes trimmedLine "<h2>" || includes trimmedLine "<h3>"
         || includes trimmedLine "<h4>" || includes trimmedLine "<h5>"
         || includes trimmedLine "<h6>" then
        push_if (includes trimmedLine "<h1>" && negb (includes text "<h1>"))
          (mkIssue (lineNumber + 1) "Multiple h1 tags found - page should have only one h1"
             "MEDIUM" range) Warning
      else [])
  ++ push_if (includes trimmedLine "<html" && negb (includes trimmedLine "lang="))
    (mkIssue (lineNumber + 1) "Missing lang attribute on html tag" "HIGH" range) Error
  ++ push_if ((includes trimmedLine "<div" || includes trimmedLine "<span")
              && includes trimmedLine "onclick" && negb (includes trimmedLine "tabindex")
              && negb (includes trimmedLine "role="))
    (mkIssue (lineNumber + 1)
       "Clickable div/span without keyboard accessibility - add tabindex and role"
       "HIGH" range) Error
  ++ push_if (includes trimmedLine "<label" && negb (includes trimmedLine "for="))
    (mkIssue (lineNumber + 1) "Label element missing for attribute" "MEDIUM" range) Warning
  ++ push_if (includes trimmedLine "color:" || includes trimmedLine "background-color:")
    (mkIssue (lineNumber + 1)
       "Color styling detected - ensure information is not conveyed by color alone"
       "LOW" range) Information
  ++ push_if (includes trimmedLine ":focus" && includes trimmedLine "outline: none")
    (mkIssue (lineNumber + 1) "Focus outline removed without alternative focus indicator"
       "HIGH" range) Error.

Fixpoint forEachLine (lines : list string) (index : nat) (text : string)
  : list (AccessibilityIssue * Diagnostic) :=
  match lines with
  | [] => []
  | line :: rest => lineChecks line index text ++ forEachLine rest (S index) text
  end.

(** [checkAccessibilityIssues] of [activate]: the [issues] and the
    [diagnostics] it sets; the console output is left out. *)
Definition checkAccessibilityIssues (text : string)
  : list AccessibilityIssue * list Diagnostic :=
  let pushed := forEachLine (split_nl text) 0 text in
  (map fst pushed, map snd pushed).

(** The [onDidChangeTextDocument] listener: the diagnostics it sets, if it
    runs the check at all. *)
Definition htmlFileWatcher (fileName text : string) : option (list Diagnostic) :=
  if ends_with fileName ".html" || ends_with fileName ".htm" then
    Some (snd (checkAccessibilityIssues text))
  else None.

End Extension.

(* ================================================================== *)
(** * Derived notions and sample inputs used by the statements *)

Definition missing_alt_issue (line : string) (lineNumber : nat) : AccessibilityIssue :=
  mkIssue (lineNumber + 1) "Missing alt attribute on image...." "HIGH"
    (mkRange lineNumber 0 lineNumber (String.length line)).

Definition empty_alt_issue (line : string) (lineNumber : nat) : AccessibilityIssue :=
  mkIssue (lineNumber + 1)
    "Empty alt attribute - consider if image is decorative or needs description" "MEDIUM"
    (mkRange lineNumber 0 lineNumber (String.length line)).

(** [<button onclick="f()">Click me</button>]. *)
Definition button_with_text : string :=
  "<button onclick=" ++ dq ++ "f()" ++ dq ++ ">Click me</button>".

(** [<button onclick="f()"></button>]. *)
Definition button_without_text : string :=
  "<button onclick=" ++ dq ++ "f()" ++ dq ++ "></button>".

(** [<button aria-label="button">Submit</button>]. *)
Definition button_generic_label : string :=
  "<button aria-label=" ++ dq ++ "button" ++ dq ++ ">Submit</button>".

(** [<button aria-label="">Click me</button>]. *)
Definition button_empty_label : string :=
  "<button aria-label=" ++ dq ++ dq ++ ">Click me</button>".

(** [<div role="button" onclick="f()" tabindex="5">X</div>]. *)
Definition div_button_positive_tabindex : string :=
  "<div role=" ++ dq ++ "button" ++ dq ++ " onclick=" ++ dq ++ "f()" ++ dq
  ++ " tabindex=" ++ dq ++ "5" ++ dq ++ ">X</div>".

Definition issue_text_severity (i : AccessibilityIssue) : string * string :=
  (issue i, severity i).

Definition count_severity (sev : string) (issues : list AccessibilityIssue) : nat :=
  length (filter (fun i => String.eqb (severity i) sev) issues).

(** The external generation step fails: the client cannot be initialised,
    or every completion call throws, or answers with a missing or blank
    content. *)
Definition external_generation_fails (env : AltTagAutoFixer.Env) : Prop :=
  AltTagAutoFixer.initializeOpenAI env = false
  \/ (forall prompt,
        match AltTagAutoFixer.complete env prompt with
        | AltTagAutoFixer.Threw _ => True
        | AltTagAutoFixer.Answered None => True
        | AltTagAutoFixer.Answered (Some c) => trim c = EmptyString
        end).

(* ------------------------------------------------------------------ *)
(** ** The families as ordered lists of detectors *)

(** One calling convention for every detector: (line, index, full text). *)
Definition Detector : Type := string -> nat -> string -> option AccessibilityIssue.

Definition image_family : list Detector :=
  [fun l n _ => ImageChecker.checkImageAltAttributes l n;
   fun l n _ => ImageChecker.checkEmptyAltAttributes l n].

Definition form_family : list Detector :=
  [fun l n _ => FormElementsChecker.checkFormInputLabels l n;
   fun l n _ => FormElementsChecker.checkFormLabels l n].

Definition other_family : list Detector :=
  [OtherAccessibilityChecker.checkHeadingStructure;
   fun l n _ => OtherAccessibilityChecker.checkHtmlLangAttribute l n;
   fun l n _ => OtherAccessibilityChecker.checkKeyboardAccessibility l n;
   fun l n _ => OtherAccessibilityChecker.checkColorOnlyInformation l n;
   fun l n _ => OtherAccessibilityChecker.checkFocusIndicators l n].

Definition aria_family : list Detector :=
  [fun l n _ => AriaLabelRoleChecker.checkMissingAriaLabel l n;
   fun l n _ => AriaLabelRoleChecker.checkEmptyAriaLabel l n;
   fun l n _ => AriaLabelRoleChecker.checkRedundantAriaLabel l n;
   fun l n _ => AriaLabelRoleChecker.checkInvalidRole l n;
   fun l n _ => AriaLabelRoleChecker.checkRedundantRole l n;
   AriaLabelRoleChecker.checkMissingAriaLabelledbyReference;
   AriaLabelRoleChecker.checkMissingAriaDescribedbyReference;
   fun l n _ => AriaLabelRoleChecker.checkMissingAriaExpanded l n;
   fun l n _ => AriaLabelRoleChecker.checkIncorrectAriaExpanded l n;
   fun l n _ => AriaLabelRoleChecker.checkMissingAriaHiddenOnDecorative l n;
   fun l n _ => AriaLabelRoleChecker.checkConflictingAriaHiddenAndRole l n;
   fun l n _ => AriaLabelRoleChecker.checkMissingAriaDisabled l n;
   fun l n _ => AriaLabelRoleChecker.checkMissingAriaRequired l n;
   fun l n _ => AriaLabelRoleChecker.checkMissingAriaInvalid l n;
   fun l n _ => AriaLabelRoleChecker.checkEmptyButtonElements l n].

Definition tab_family : list Detector :=
  [fun l n _ => TabIndexChecker.checkNegativeTabIndex l n;
   fun l n _ => TabIndexChecker.checkTabIndexZeroOnNonInteractive l n;
   fun l n _ => TabIndexChecker.checkMissingTabIndexOnCustomInteractive l n;
   fun l n _ => TabIndexChecker.checkTabIndexOnPresentationRole l n;
   fun l n _ => TabIndexChecker.checkTabIndexOnNoneRole l n;
   fun l n _ => TabIndexChecker.checkTabIndexOnAriaHidden l n;
   fun l n _ => TabIndexChecker.checkRedundantTabIndexOnFocusable l n;
   fun l n _ => TabIndexChecker.checkPositiveTabIndex l n;
   fun l n _ => TabIndexChecker.checkMissingTabIndexOnClickable l n;
   fun l n _ => TabIndexChecker.checkDisabledElementWithTabIndex l n;
   fun l n _ => TabIndexChecker.checkTabIndexOnHiddenElement l n;
   fun l n _ => TabIndexChecker.checkMissingTabIndexOnModalTrigger l n;
   fun l n _ => TabIndexChecker.checkMissingTabIndexOnCustomFormControl l n;
   fun l n _ => TabIndexChecker.checkTabIndexOnDecorativeElement l n;
   fun l n _ => TabIndexChecker.checkInconsistentTabIndexUsage l n;
   fun l n _ => TabIndexChecker.checkTabIndexOnNonInteractiveElement l n].

Definition semantic_family : list Detector :=
  [SemanticHtmlChecker.checkHeadingHierarchy;
   fun l n _ => SemanticHtmlChecker.checkHtmlLangAttribute l n;
   fun l n _ => SemanticHtmlChecker.checkListStructure l n;
   fun l n _ => SemanticHtmlChecker.checkTableStructure l n;
   fun l n _ => SemanticHtmlChecker.checkFormStructure l n;
   fun l n _ => SemanticHtmlChecker.checkButtonUsage l n;
   fun l n _ => SemanticHtmlChecker.checkLinkUsage l n;
   fun l n _ => SemanticHtmlChecker.checkLandmarkUsage l n;
   fun l n _ => SemanticHtmlChecker.checkSectioningElements l n;
   fun l n _ => SemanticHtmlChecker.checkNavigationStructure l n;
   SemanticHtmlChecker.checkDocumentStructure].

(** The families in the order [checkAccessibilityIssues] calls them. *)
Definition registered_families : list (list Detector) :=
  [image_family; form_family; other_family; aria_family; tab_family; semantic_family].

Definition run_family (family : list Detector) (l : string) (n : nat) (text : string)
  : list AccessibilityIssue :=
  collect (map (fun d => d l n text) family).

Definition spans_whole_line (l : string) (n : nat) (x : AccessibilityIssue) : Prop :=
  range x = mkRange n 0 n (String.length l) /\ line x = n + 1.

Definition detector_spans_line (d : Detector) : Prop :=
  forall l n text x, d l n text = Some x -> spans_whole_line l n x.

(* ------------------------------------------------------------------ *)
(** ** The order of the aggregated issues

    Second definition, following the spec's words rather than the source:
    every issue tagged with (line index, family index, detector index),
    lines in ascending order, families in declaration order, detectors in
    declaration order within their family. *)

Fixpoint enum_from {A : Type} (k : nat) (xs : list A) : list (nat * A) :=
  match xs with
  | [] => []
  | x :: rest => (k, x) :: enum_from (S k) rest
  end.

Definition Tagged : Type := nat * nat * nat * AccessibilityIssue.

Definition detector_hits (l : string) (i f : nat) (text : string) (dd : nat * Detector)
  : list Tagged :=
  match snd dd l i text with
  | Some x => [(i, f, fst dd, x)]
  | None => []
  end.

Definition family_hits (l : string) (i : nat) (text : string) (ff : nat * list Detector)
  : list Tagged :=
  flat_map (detector_hits l i (fst ff) text) (enum_from 0 (snd ff)).

Definition line_hits (text : string) (il : nat * string) : list Tagged :=
  flat_map (family_hits (snd il) (fst il) text) (enum_from 0 registered_families).

Definition tagged_issues (text : string) : list Tagged :=
  flat_map (line_hits text) (enum_from 0 (split_nl text)).

(** Lexicographic order on (line, family, detector). *)
Definition tag_lt (a b : Tagged) : Prop :=
  match a, b with
  | (i, f, d, _), (j, g, e, _) => i < j \/ (i = j /\ (f < g \/ (f = g /\ d < e)))
  end.

Definition img_no_alt : string := "<img src=" ++ dq ++ "logo.png" ++ dq ++ ">".

Definition img_empty_alt : string :=
  "<img src=" ++ dq ++ "logo.png" ++ dq ++ " alt=" ++ dq ++ dq ++ ">".

Definition heading_document : string := "<h1>Title</h1>" ++ nl ++ "<p>Body</p>".

Definition failing_env : AltTagAutoFixer.Env :=
  AltTagAutoFixer.mkEnv true (Some "key") true (fun _ => AltTagAutoFixer.Threw "timeout").

Definition answering_env : AltTagAutoFixer.Env :=
  AltTagAutoFixer.mkEnv true (Some "key") true
    (fun _ => AltTagAutoFixer.Answered (Some " A cat ")).

Definition answering_oracle : AltTagAutoFixer.Oracle :=
  fun _ _ => AltTagAutoFixer.Answered (Some "A dog").

Definition two_images : string :=
  img_no_alt ++ nl ++ "<p>text</p>" ++ nl ++ "<img src=" ++ dq ++ "b.png" ++ dq ++ " />".

Definition keyless_env : AltTagAutoFixer.Env :=
  AltTagAutoFixer.mkEnv false (Some EmptyString) true
    (fun _ => AltTagAutoFixer.Answered (Some "A cat")).


(* ================================================================== *)
(** * Properties *)

(** ** Lemmas on the string primitives *)

Lemma sapp_assoc (a b c : string) : (a ++ b) ++ c = a ++ b ++ c.
Proof. induction a as [|x a IH]; simpl; [reflexivity | now rewrite IH]. Qed.

Lemma sapp_nil_r (a : string) : a ++ EmptyString = a.
Proof. induction a as [|x a IH]; simpl; [reflexivity | now rewrite IH]. Qed.

Lemma starts_with_spec (p s : string) :
  starts_with p s = true <-> exists b, s = p ++ b.
Proof.
  revert s; induction p as [|c p IH]; intros [|c' s]; simpl.
  - split; eauto.
  - split; eauto.
  - split; [discriminate | intros [b Hb]; discriminate].
  - rewrite andb_true_iff, IH.
    destruct (Ascii.eqb_spec c c') as [<-|Hne].
    + split.
      * intros [_ [b ->]]; eauto.
      * intros [b Hb]; injection Hb as Hb; split; eauto.
    + split.
      * intros [H _]; discriminate.
      * intros [b Hb]; injection Hb; intros; congruence.
Qed.

Lemma includes_spec (s p : string) :
  includes s p = true <-> exists a b, s = a ++ p ++ b.
Proof.
  induction s as [|c s IH]; simpl; rewrite orb_true_iff, starts_with_spec.
  - split.
    + intros [[b Hb] | H]; [|discriminate]. exists EmptyString, b; exact Hb.
    + intros [a [b Hab]]. left. destruct a; simpl in Hab; [exists b; exact Hab | discriminate].
  - rewrite IH. split.
    + intros [[b Hb] | [a [b Hab]]].
      * exists EmptyString, b; exact Hb.
      * exists (String c a), b. simpl. rewrite Hab. reflexivity.
    + intros [a [b Hab]]. destruct a as [|c' a]; simpl in Hab.
      * left. exists b. exact Hab.
      * injection Hab as <- Hs. right. exists a, b. exact Hs.
Qed.

Lemma includes_widen (a s b p : string) :
  includes s p = true -> includes (a ++ s ++ b) p = true.
Proof.
  rewrite !includes_spec. intros [a0 [b0 ->]].
  exists (a ++ a0), (b0 ++ b). rewrite !sapp_assoc. reflexivity.
Qed.

Lemma includes_prefix (s p q : string) :
  includes s (p ++ q) = true -> includes s p = true.
Proof.
  rewrite !includes_spec. intros [a [b ->]].
  exists a, (q ++ b). rewrite !sapp_assoc. reflexivity.
Qed.

Lemma trim_start_sub (s : string) : exists a, s = a ++ trim_start s.
Proof.
  induction s as [|c s [a Ha]]; simpl.
  - exists EmptyString; reflexivity.
  - destruct (is_ws c).
    + exists (String c a). simpl. rewrite <- Ha. reflexivity.
    + exists EmptyString. reflexivity.
Qed.

Lemma trim_end_sub (s : string) : exists b, s = trim_end s ++ b.
Proof.
  induction s as [|c s [b Hb]]; simpl.
  - exists EmptyString; reflexivity.
  - destruct (trim_end s) as [|c' r] eqn:E.
    + destruct (is_ws c).
      * exists (String c s). reflexivity.
      * exists s. reflexivity.
    + exists b. simpl. rewrite Hb at 1. reflexivity.
Qed.

(** [s.trim()] is a substring of [s]. *)
Lemma trim_sub (s : string) : exists a b, s = a ++ trim s ++ b.
Proof.
  destruct (trim_start_sub s) as [a Ha].
  destruct (trim_end_sub (trim_start s)) as [b Hb].
  exists a, b. unfold trim. rewrite <- Hb. exact Ha.
Qed.

Lemma includes_trim_l (s p : string) :
  includes (trim s) p = true -> includes s p = true.
Proof.
  intros H. destruct (trim_sub s) as [a [b Hab]]. rewrite Hab.
  apply includes_widen. exact H.
Qed.

Lemma trim_start_length (s : string) : String.length (trim_start s) <= String.length s.
Proof.
  induction s as [|c s IH]; simpl; [lia|].
  destruct (is_ws c); simpl; lia.
Qed.

Lemma trim_start_app (a p b : string) :
  p <> EmptyString -> trim_start p = p ->
  exists a', trim_start (a ++ p ++ b) = a' ++ p ++ b.
Proof.
  intros Hne Hp. induction a as [|c a IH]; simpl.
  - exists EmptyString. simpl.
    destruct p as [|c p]; [congruence|]. simpl in *.
    destruct (is_ws c) eqn:Ec; [|reflexivity].
    exfalso. pose proof (trim_start_length p) as Hl. rewrite Hp in Hl. simpl in Hl. lia.
  - destruct (is_ws c).
    + exact IH.
    + exists (String c a). reflexivity.
Qed.

Lemma trim_end_app (p b : string) :
  p <> EmptyString -> trim_end p = p -> trim_end (p ++ b) = p ++ trim_end b.
Proof.
  revert b. induction p as [|c p IH]; intros b Hne Hp; [congruence|].
  simpl in Hp |- *.
  destruct p as [|c2 p'].
  - simpl in Hp |- *.
    destruct (is_ws c); [discriminate|].
    destruct (trim_end b); reflexivity.
  - destruct (trim_end (String c2 p')) as [|c3 r] eqn:E.
    + destruct (is_ws c); discriminate.
    + injection Hp as Hr. subst.
      rewrite IH by congruence. reflexivity.
Qed.

Lemma trim_end_app2 (a p b : string) :
  p <> EmptyString -> trim_end p = p -> trim_end (a ++ p ++ b) = a ++ p ++ trim_end b.
Proof.
  intros Hne Hp. induction a as [|c a IH]; simpl.
  - apply trim_end_app; assumption.
  - rewrite IH. destruct p; [congruence|].
    destruct a; reflexivity.
Qed.

(** A pattern with no white space at either end occurs in [s.trim()] as
    soon as it occurs in [s]. *)
Lemma includes_trim_r (s p : string) :
  p <> EmptyString -> trim_start p = p -> trim_end p = p ->
  includes s p = true -> includes (trim s) p = true.
Proof.
  intros Hne Hs He H. apply includes_spec in H as [a [b ->]].
  unfold trim. destruct (trim_start_app a p b Hne Hs) as [a' ->].
  rewrite trim_end_app2 by assumption.
  apply includes_spec. eauto.
Qed.

Lemma split_nl_head (s l : string) (ls : list string) :
  split_nl s = l :: ls -> exists b, s = l ++ b.
Proof.
  revert l ls. induction s as [|c s IH]; intros l ls H; simpl in H.
  - injection H as <- _. exists EmptyString. reflexivity.
  - destruct (char_is 10 c).
    + injection H as <- _. exists (String c s). reflexivity.
    + destruct (split_nl s) as [|l0 ls0] eqn:E.
      * injection H as <- _. exists s. reflexivity.
      * injection H as <- _. destruct (IH l0 ls0 eq_refl) as [b ->].
        exists b. reflexivity.
Qed.

(** Every piece of [text.split('\n')] is a substring of [text]. *)
Lemma split_nl_sub (s l : string) :
  In l (split_nl s) -> exists a b, s = a ++ l ++ b.
Proof.
  revert l. induction s as [|c s IH]; intros l H; simpl in H.
  - destruct H as [<-|[]]. exists EmptyString, EmptyString. reflexivity.
  - destruct (char_is 10 c).
    + destruct H as [<-|H].
      * exists EmptyString, (String c s). reflexivity.
      * destruct (IH l H) as [a [b ->]]. exists (String c a), b. reflexivity.
    + destruct (split_nl s) as [|l0 ls0] eqn:E.
      * destruct H as [<-|[]]. exists EmptyString, s. reflexivity.
      * destruct H as [<-|H].
        -- destruct (split_nl_head s l0 ls0 E) as [b ->].
           exists EmptyString, b. reflexivity.
        -- destruct (IH l (or_intror H)) as [a [b ->]].
           exists (String c a), b. reflexivity.
Qed.

(* ------------------------------------------------------------------ *)
(** ** The image family *)

(** C2.  On a line whose trimmed text contains [<img] but not [alt=], the
    image family returns exactly one issue, the HIGH missing-alt one.  On a
    line containing [alt=""] or [alt=''], it returns exactly one issue, the
    MEDIUM empty-alt one, and the HIGH missing-alt detector does not fire. *)
Theorem checkImages_missing_or_empty_alt (line : string) (lineNumber : nat) :
  (includes (trim line) "<img" = true -> includes (trim line) "alt=" = false ->
   ImageChecker.checkImages line lineNumber = [missing_alt_issue line lineNumber])
  /\ (includes line ("alt=" ++ dq ++ dq) = true \/ includes line "alt=''" = true ->
      ImageChecker.checkImageAltAttributes line lineNumber = None
      /\ ImageChecker.checkImages line lineNumber = [empty_alt_issue line lineNumber]).
Proof.
  split.
  - intros Himg Halt.
    assert (E1 : includes (trim line) ("alt=" ++ dq ++ dq) = false).
    { destruct (includes (trim line) ("alt=" ++ dq ++ dq)) eqn:E; [|reflexivity].
      apply includes_prefix in E. congruence. }
    assert (E2 : includes (trim line) "alt=''" = false).
    { destruct (includes (trim line) "alt=''") eqn:E; [|reflexivity].
      change "alt=''" with ("alt=" ++ "''") in E.
      apply includes_prefix in E. congruence. }
    unfold ImageChecker.checkImages, ImageChecker.checkImageAltAttributes,
      ImageChecker.checkEmptyAltAttributes; cbv zeta.
    rewrite Himg, Halt, E1, E2. reflexivity.
  - intros Hempty.
    assert (Ht : includes (trim line) ("alt=" ++ dq ++ dq) = true
                 \/ includes (trim line) "alt=''" = true).
    { destruct Hempty as [H|H]; [left|right];
        (apply includes_trim_r; [discriminate | reflexivity | reflexivity | exact H]). }
    assert (Halt : includes (trim line) "alt=" = true).
    { destruct Ht as [H|H].
      - exact (includes_prefix _ _ _ H).
      - change "alt=''" with ("alt=" ++ "''") in H. exact (includes_prefix _ _ _ H). }
    assert (Hor : (includes (trim line) ("alt=" ++ dq ++ dq)
                   || includes (trim line) "alt=''") = true).
    { apply orb_true_iff. exact Ht. }
    unfold ImageChecker.checkImages, ImageChecker.checkImageAltAttributes,
      ImageChecker.checkEmptyAltAttributes; cbv zeta.
    rewrite Halt, Hor, andb_false_r. split; reflexivity.
Qed.

(* ------------------------------------------------------------------ *)
(** ** The severity classifier *)

(** C3.  [getSeverity] is a total function: HIGH gives the error level,
    MEDIUM the warning level, LOW the informational level, any other string
    the informational level; the three defined severities give three
    distinct levels. *)
Theorem getSeverity_total_distinct :
  AccessibilityChecker.getSeverity "HIGH" = Error
  /\ AccessibilityChecker.getSeverity "MEDIUM" = Warning
  /\ AccessibilityChecker.getSeverity "LOW" = Information
  /\ (forall s, s <> "HIGH" -> s <> "MEDIUM" -> s <> "LOW" ->
        AccessibilityChecker.getSeverity s = Information)
  /\ AccessibilityChecker.getSeverity "HIGH" <> AccessibilityChecker.getSeverity "MEDIUM"
  /\ AccessibilityChecker.getSeverity "HIGH" <> AccessibilityChecker.getSeverity "LOW"
  /\ AccessibilityChecker.getSeverity "MEDIUM" <> AccessibilityChecker.getSeverity "LOW".
Proof.
  repeat split; try discriminate.
  intros s H1 H2 H3. unfold AccessibilityChecker.getSeverity.
  apply String.eqb_neq in H1, H2, H3. rewrite H1, H2, H3. reflexivity.
Qed.

(* ------------------------------------------------------------------ *)
(** ** The heading-structure detector of the other family *)

(** C10.  Called as the aggregator calls it, on a line of [fullText]
    itself, [checkHeadingStructure] always returns [null]: its guard needs
    [<h1>] in the trimmed line and not in [fullText], and the line is a
    substring of [fullText]. *)
Theorem checkHeadingStructure_unreachable (text line : string) (lineNumber : nat) :
  In line (split_nl text) ->
  OtherAccessibilityChecker.checkHeadingStructure line lineNumber text = None.
Proof.
  intros Hin. unfold OtherAccessibilityChecker.checkHeadingStructure; cbv zeta.
  destruct (includes (trim line) "<h1>") eqn:Eh1.
  - assert (Ht : includes text "<h1>" = true).
    { destruct (split_nl_sub text line Hin) as [a [b ->]].
      apply includes_widen, includes_trim_l. exact Eh1. }
    rewrite Ht. simpl. reflexivity.
  - simpl. destruct (_ || _); reflexivity.
Qed.

(* ------------------------------------------------------------------ *)
(** ** The ARIA family on the lines of its test suite *)

(** C4.  On [<button onclick="f()">Click me</button>] the ARIA family
    reports nothing; on [<button onclick="f()"></button>] it reports two
    HIGH issues, the missing accessible name of [checkMissingAriaLabel] and
    the empty button of [checkEmptyButtonElements], not one. *)
Theorem checkAriaLabelAndRole_buttons (lineNumber : nat) (fullText : string) :
  AriaLabelRoleChecker.checkAriaLabelAndRole button_with_text lineNumber fullText = []
  /\ map issue_text_severity
       (AriaLabelRoleChecker.checkAriaLabelAndRole button_without_text lineNumber fullText)
     = [("Interactive element missing accessible name (aria-label, aria-labelledby, or visible text)",
         "HIGH");
        ("Empty button element needs accessible name (aria-label, aria-labelledby, or visible text)",
         "HIGH")].
Proof. split; vm_compute; reflexivity. Qed.

(** C6 (as the code has it).  On [<button aria-label="button">Submit</button>]
    the ARIA family reports exactly one issue, of severity MEDIUM; it is the
    redundant-aria-label finding, since no detector inspects the aria-label
    value for generic words. *)
Theorem checkAriaLabelAndRole_generic_label (lineNumber : nat) (fullText : string) :
  map issue_text_severity
    (AriaLabelRoleChecker.checkAriaLabelAndRole button_generic_label lineNumber fullText)
  = [("Redundant aria-label when visible text already provides accessible name", "MEDIUM")].
Proof. vm_compute; reflexivity. Qed.

(** C6 as stated fails: the one MEDIUM issue on that line does not cite
    generic text. *)
Lemma checkAriaLabelAndRole_generic_label_not_cited :
  ~ (exists i, AriaLabelRoleChecker.checkAriaLabelAndRole button_generic_label 0 EmptyString = [i]
               /\ severity i = "MEDIUM" /\ includes (issue i) "generic" = true).
Proof.
  intros [i [Hi [_ Hg]]]. vm_compute in Hi. injection Hi as <-.
  vm_compute in Hg. discriminate.
Qed.

(** C7.  On [<button aria-label="">Click me</button>] the ARIA family
    reports two issues: the HIGH empty-aria-label finding and, from
    [checkRedundantAriaLabel], a MEDIUM redundant-aria-label finding. *)
Theorem checkAriaLabelAndRole_empty_label (lineNumber : nat) (fullText : string) :
  map issue_text_severity
    (AriaLabelRoleChecker.checkAriaLabelAndRole button_empty_label lineNumber fullText)
  = [("Empty or whitespace-only aria-label provides no accessible name", "HIGH");
     ("Redundant aria-label when visible text already provides accessible name", "MEDIUM")].
Proof. vm_compute; reflexivity. Qed.

(** C5 (as the code has it).  The engine on the one-line document
    [<div role="button" onclick="f()" tabindex="5">X</div>] reports two
    MEDIUM issues (missing aria-expanded, positive tabindex) and no HIGH
    issue: the HIGH missing-tabindex detector is gated on the absence of
    [tabindex=].  Filtering by severity gives 0 HIGH and 2 MEDIUM. *)
Theorem engine_div_button_positive_tabindex :
  map issue_text_severity
    (fst (AccessibilityChecker.checkAccessibilityIssues div_button_positive_tabindex))
  = [("Collapsible element missing aria-expanded attribute", "MEDIUM");
     ("Positive tabindex=" ++ dq ++ "5" ++ dq ++ " disrupts natural tab order - use "
      ++ attr "tabindex" "0" ++ " or negative values only", "MEDIUM")]
  /\ count_severity "HIGH"
       (fst (AccessibilityChecker.checkAccessibilityIssues div_button_positive_tabindex)) = 0
  /\ count_severity "MEDIUM"
       (fst (AccessibilityChecker.checkAccessibilityIssues div_button_positive_tabindex)) = 2.
Proof. repeat split; vm_compute; reflexivity. Qed.

(** C5 as stated fails: there is no HIGH issue on that document. *)
Lemma engine_div_button_positive_tabindex_no_high :
  ~ (exists i, In i (fst (AccessibilityChecker.checkAccessibilityIssues div_button_positive_tabindex))
               /\ severity i = "HIGH").
Proof.
  intros [i [Hin Hs]]. vm_compute in Hin.
  destruct Hin as [<-|[<-|[]]]; vm_compute in Hs; discriminate.
Qed.

(* ------------------------------------------------------------------ *)
(** ** The alt-text repair *)

Lemma generateAltText_fails (env : AltTagAutoFixer.Env) (imageSrc : string) :
  external_generation_fails env ->
  AltTagAutoFixer.success (AltTagAutoFixer.generateAltText env imageSrc) = false.
Proof.
  intros H. unfold AltTagAutoFixer.generateAltText.
  destruct (AltTagAutoFixer.initializeOpenAI env) eqn:Ei; [|reflexivity].
  destruct H as [H|H]; [congruence|].
  specialize (H (AltTagAutoFixer.buildPrompt imageSrc)).
  destruct (AltTagAutoFixer.complete env (AltTagAutoFixer.buildPrompt imageSrc))
    as [e|[c|]]; simpl; try reflexivity.
  rewrite H. reflexivity.
Qed.

(** C8.  [fixSpecificImageTag] returns no edit ([null]) when the line has
    no [<img], already has [alt=], or the external generation fails; the
    document, to which the caller applies only a non-null edit, is then
    left unchanged. *)
Theorem fixSpecificImageTag_no_edit (env : AltTagAutoFixer.Env) (lineNumber : nat)
  (lineText : string) (lines : list string) :
  includes lineText "<img" = false \/ includes lineText "alt=" = true
  \/ external_generation_fails env ->
  AltTagAutoFixer.fixSpecificImageTag env lineNumber lineText = None
  /\ AltTagAutoFixer.applyIfPresent lines
       (AltTagAutoFixer.fixSpecificImageTag env lineNumber lineText) = lines.
Proof.
  intros H.
  enough (E : AltTagAutoFixer.fixSpecificImageTag env lineNumber lineText = None)
    by (rewrite E; split; reflexivity).
  unfold AltTagAutoFixer.fixSpecificImageTag; cbv zeta.
  destruct H as [H|[H|H]].
  - assert (Ht : includes (trim lineText) "<img" = false).
    { destruct (includes (trim lineText) "<img") eqn:E; [|reflexivity].
      apply includes_trim_l in E. congruence. }
    rewrite Ht. reflexivity.
  - assert (Ht : includes (trim lineText) "alt=" = true).
    { apply includes_trim_r; [discriminate | reflexivity | reflexivity | exact H]. }
    rewrite Ht, orb_true_r. reflexivity.
  - destruct (negb (includes (trim lineText) "<img") || includes (trim lineText) "alt=");
      [reflexivity|].
    destruct (match_img_src (trim lineText)) as [imageSrc|]; [|reflexivity].
    rewrite (generateAltText_fails env imageSrc H). reflexivity.
Qed.

(* ------------------------------------------------------------------ *)
(** ** The engine as families of detectors *)

(** Each family runner is its detector list run in order, and [allIssues]
    is the families run in order. *)
Lemma allIssues_families (l : string) (n : nat) (text : string) :
  AccessibilityChecker.allIssues l n text
  = flat_map (fun fam => run_family fam l n text) registered_families.
Proof.
  unfold AccessibilityChecker.allIssues. simpl. rewrite app_nil_r. reflexivity.
Qed.

Lemma in_collect (x : AccessibilityIssue) (checks : list (option AccessibilityIssue)) :
  In x (collect checks) <-> In (Some x) checks.
Proof.
  induction checks as [|[y|] cs IH]; simpl.
  - tauto.
  - rewrite IH. split; intros [H|H]; try tauto; left; congruence.
  - rewrite IH. split; [tauto|]. intros [H|H]; [discriminate | exact H].
Qed.

(* ------------------------------------------------------------------ *)
(** ** Every issue spans its whole line *)

(** Unfold one detector and split on every test it makes. *)
Ltac detector_spans :=
  let l := fresh "l" in let n := fresh "n" in let t := fresh "t" in
  let x := fresh "x" in let H := fresh "H" in
  intros l n t x H; cbv beta in H;
  unfold ImageChecker.checkImageAltAttributes, ImageChecker.checkEmptyAltAttributes,
    FormElementsChecker.checkFormInputLabels, FormElementsChecker.checkFormLabels,
    OtherAccessibilityChecker.checkHeadingStructure,
    OtherAccessibilityChecker.checkHtmlLangAttribute,
    OtherAccessibilityChecker.checkKeyboardAccessibility,
    OtherAccessibilityChecker.checkColorOnlyInformation,
    OtherAccessibilityChecker.checkFocusIndicators,
    AriaLabelRoleChecker.checkMissingAriaLabel, AriaLabelRoleChecker.checkEmptyAriaLabel,
    AriaLabelRoleChecker.checkRedundantAriaLabel, AriaLabelRoleChecker.checkInvalidRole,
    AriaLabelRoleChecker.checkRedundantRole,
    AriaLabelRoleChecker.checkMissingAriaLabelledbyReference,
    AriaLabelRoleChecker.checkMissingAriaDescribedbyReference,
    AriaLabelRoleChecker.checkMissingAriaExpanded,
    AriaLabelRoleChecker.checkIncorrectAriaExpanded,
    AriaLabelRoleChecker.checkMissingAriaHiddenOnDecorative,
    AriaLabelRoleChecker.checkConflictingAriaHiddenAndRole,
    AriaLabelRoleChecker.checkMissingAriaDisabled,
    AriaLabelRoleChecker.checkMissingAriaRequired,
    AriaLabelRoleChecker.checkMissingAriaInvalid,
    AriaLabelRoleChecker.checkEmptyButtonElements,
    TabIndexChecker.checkNegativeTabIndex, TabIndexChecker.checkTabIndexZeroOnNonInteractive,
    TabIndexChecker.checkMissingTabIndexOnCustomInteractive,
    TabIndexChecker.checkTabIndexOnPresentationRole, TabIndexChecker.checkTabIndexOnNoneRole,
    TabIndexChecker.checkTabIndexOnAriaHidden,
    TabIndexChecker.checkRedundantTabIndexOnFocusable, TabIndexChecker.checkPositiveTabIndex,
    TabIndexChecker.checkMissingTabIndexOnClickable,
    TabIndexChecker.checkDisabledElementWithTabIndex,
    TabIndexChecker.checkTabIndexOnHiddenElement,
    TabIndexChecker.checkMissingTabIndexOnModalTrigger,
    TabIndexChecker.checkMissingTabIndexOnCustomFormControl,
    TabIndexChecker.checkTabIndexOnDecorativeElement,
    TabIndexChecker.checkInconsistentTabIndexUsage,
    TabIndexChecker.checkTabIndexOnNonInteractiveElement,
    SemanticHtmlChecker.checkHeadingHierarchy, SemanticHtmlChecker.checkHtmlLangAttribute,
    SemanticHtmlChecker.checkListStructure, SemanticHtmlChecker.checkTableStructure,
    SemanticHtmlChecker.checkFormStructure, SemanticHtmlChecker.checkButtonUsage,
    SemanticHtmlChecker.checkLinkUsage, SemanticHtmlChecker.checkLandmarkUsage,
    SemanticHtmlChecker.checkSectioningElements,
    SemanticHtmlChecker.checkNavigationStructure,
    SemanticHtmlChecker.checkDocumentStructure in H;
  cbv zeta in H;
  repeat (match type of H with
          | context [match ?e with _ => _ end] => destruct e
          end);
  try discriminate H;
  injection H as <-; split; reflexivity.

Lemma registered_detectors_span_line :
  Forall (fun fam => Forall detector_spans_line fam) registered_families.
Proof.
  unfold registered_families, image_family, form_family, other_family, aria_family,
    tab_family, semantic_family.
  repeat (apply Forall_cons || apply Forall_nil);
    try (unfold detector_spans_line; detector_spans).
Qed.

(* ------------------------------------------------------------------ *)
(** ** Lemmas on the tagged issue list *)

Lemma in_enum_from {A : Type} (xs : list A) (m k : nat) (y : A) :
  In (k, y) (enum_from m xs) <-> exists j, k = m + j /\ nth_error xs j = Some y.
Proof.
  revert m. induction xs as [|x xs IH]; intros m; simpl.
  - split; [tauto|]. intros [j [_ H]]. destruct j; discriminate.
  - rewrite IH. split.
    + intros [H|[j [-> H]]].
      * injection H as <- <-. exists 0. split; [lia | reflexivity].
      * exists (S j). split; [lia | exact H].
    + intros [[|j] [-> H]].
      * left. simpl in H. injection H as <-. f_equal. lia.
      * right. exists j. split; [lia | exact H].
Qed.

Lemma in_enum_from0 {A : Type} (xs : list A) (k : nat) (y : A) :
  In (k, y) (enum_from 0 xs) <-> nth_error xs k = Some y.
Proof.
  rewrite in_enum_from. split.
  - intros [j [-> H]]. exact H.
  - intros H. exists k. split; [reflexivity | exact H].
Qed.

Lemma enum_from_sorted {A : Type} (xs : list A) (m : nat) :
  StronglySorted (fun a b => fst a < fst b) (enum_from m xs).
Proof.
  revert m. induction xs as [|x xs IH]; intros m; simpl; constructor.
  - apply IH.
  - apply Forall_forall. intros [k y] Hin. apply in_enum_from in Hin.
    destruct Hin as [j [-> _]]. simpl. lia.
Qed.

Lemma StronglySorted_app {A : Type} (R : A -> A -> Prop) (l1 l2 : list A) :
  StronglySorted R l1 -> StronglySorted R l2 ->
  (forall a b, In a l1 -> In b l2 -> R a b) -> StronglySorted R (l1 ++ l2).
Proof.
  intros H1 H2 Hx. induction H1 as [|a l1 Hs IH Hf]; simpl; [exact H2|].
  constructor.
  - apply IH. intros x y Hxin Hy. apply Hx; [right|]; assumption.
  - apply Forall_app. split; [exact Hf|].
    apply Forall_forall. intros b Hb. apply Hx; [left; reflexivity | exact Hb].
Qed.

Lemma StronglySorted_flat_map {A B : Type} (Q : A -> A -> Prop) (R : B -> B -> Prop)
    (g : A -> list B) (xs : list A) :
  StronglySorted Q xs ->
  (forall x, In x xs -> StronglySorted R (g x)) ->
  (forall x y a b, Q x y -> In a (g x) -> In b (g y) -> R a b) ->
  StronglySorted R (flat_map g xs).
Proof.
  intros Hs Hblock Hcross. induction Hs as [|x xs Hs IH Hf]; simpl; [constructor|].
  apply StronglySorted_app.
  - apply Hblock. left. reflexivity.
  - apply IH. intros y Hy. apply Hblock. right. exact Hy.
  - intros a b Ha Hb. apply in_flat_map in Hb. destruct Hb as [y [Hy Hb]].
    rewrite Forall_forall in Hf. apply (Hcross x y); auto.
Qed.

Lemma detector_hits_in (l : string) (i f d : nat) (text : string) (det : Detector) (t : Tagged) :
  In t (detector_hits l i f text (d, det)) <->
  exists x, t = (i, f, d, x) /\ det l i text = Some x.
Proof.
  unfold detector_hits. simpl. destruct (det l i text) as [x|]; simpl.
  - split.
    + intros [<-|[]]. exists x. split; reflexivity.
    + intros [y [-> Hy]]. injection Hy as ->. left. reflexivity.
  - split; [tauto|]. intros [y [_ Hy]]. discriminate.
Qed.

Lemma family_hits_in (l : string) (i f : nat) (text : string) (fam : list Detector) (t : Tagged) :
  In t (family_hits l i text (f, fam)) <->
  exists d det x, t = (i, f, d, x) /\ nth_error fam d = Some det /\ det l i text = Some x.
Proof.
  unfold family_hits. cbn [fst snd]. rewrite in_flat_map. split.
  - intros [[d det] [Hd Ht]]. apply in_enum_from0 in Hd.
    apply detector_hits_in in Ht. destruct Ht as [x [-> Hx]].
    exists d, det, x. auto.
  - intros [d [det [x [-> [Hd Hx]]]]]. exists (d, det). split.
    + apply in_enum_from0. exact Hd.
    + apply detector_hits_in. exists x. auto.
Qed.

Lemma line_hits_in (text : string) (i : nat) (l : string) (t : Tagged) :
  In t (line_hits text (i, l)) <->
  exists f fam d det x, t = (i, f, d, x) /\ nth_error registered_families f = Some fam
    /\ nth_error fam d = Some det /\ det l i text = Some x.
Proof.
  unfold line_hits. cbn [fst snd]. rewrite in_flat_map. split.
  - intros [[f fam] [Hf Ht]]. apply in_enum_from0 in Hf.
    apply family_hits_in in Ht. destruct Ht as [d [det [x [-> [Hd Hx]]]]].
    exists f, fam, d, det, x. auto.
  - intros [f [fam [d [det [x [-> [Hf [Hd Hx]]]]]]]]. exists (f, fam). split.
    + apply in_enum_from0. exact Hf.
    + apply family_hits_in. exists d, det, x. auto.
Qed.

Lemma tagged_issues_in (text : string) (t : Tagged) :
  In t (tagged_issues text) <->
  exists i l f fam d det x, t = (i, f, d, x) /\ nth_error (split_nl text) i = Some l
    /\ nth_error registered_families f = Some fam
    /\ nth_error fam d = Some det /\ det l i text = Some x.
Proof.
  unfold tagged_issues. rewrite in_flat_map. split.
  - intros [[i l] [Hi Ht]]. apply in_enum_from0 in Hi.
    apply line_hits_in in Ht. destruct Ht as [f [fam [d [det [x [-> H]]]]]].
    exists i, l, f, fam, d, det, x. tauto.
  - intros [i [l [f [fam [d [det [x [-> [Hi H]]]]]]]]]. exists (i, l). split.
    + apply in_enum_from0. exact Hi.
    + apply line_hits_in. exists f, fam, d, det, x. tauto.
Qed.

Lemma map_snd_family_hits (l : string) (i f : nat) (text : string) (fam : list Detector) (m : nat) :
  map snd (flat_map (detector_hits l i f text) (enum_from m fam)) = run_family fam l i text.
Proof.
  unfold run_family. revert m. induction fam as [|det fam IH]; intros m; simpl; [reflexivity|].
  rewrite map_app, IH. unfold detector_hits. simpl.
  destruct (det l i text); reflexivity.
Qed.

Lemma map_snd_line_hits (l : string) (i : nat) (text : string) (fams : list (list Detector)) (m : nat) :
  map snd (flat_map (family_hits l i text) (enum_from m fams))
  = flat_map (fun fam => run_family fam l i text) fams.
Proof.
  revert m. induction fams as [|fam fams IH]; intros m; simpl; [reflexivity|].
  rewrite map_app, IH. unfold family_hits. cbn [fst snd]. rewrite map_snd_family_hits.
  reflexivity.
Qed.

(** Dropping the tags gives exactly the engine's issue list. *)
Lemma tagged_issues_engine (text : string) :
  map snd (tagged_issues text) = fst (AccessibilityChecker.checkAccessibilityIssues text).
Proof.
  unfold tagged_issues, AccessibilityChecker.checkAccessibilityIssues. cbn [fst].
  generalize 0. induction (split_nl text) as [|l ls IH]; intros k; [reflexivity|].
  cbn [enum_from flat_map AccessibilityChecker.forEachLine].
  rewrite map_app, IH. unfold line_hits. cbn [fst snd].
  rewrite map_snd_line_hits, allIssues_families. reflexivity.
Qed.

Lemma tagged_issues_sorted (text : string) : StronglySorted tag_lt (tagged_issues text).
Proof.
  unfold tagged_issues.
  apply (StronglySorted_flat_map (fun a b => fst a < fst b)); [apply enum_from_sorted | |].
  - intros [i l] _. unfold line_hits. cbn [fst snd].
    apply (StronglySorted_flat_map (fun a b => fst a < fst b)); [apply enum_from_sorted | |].
    + intros [f fam] _. unfold family_hits. cbn [fst snd].
      apply (StronglySorted_flat_map (fun a b => fst a < fst b)); [apply enum_from_sorted | |].
      * intros [d det] _. unfold detector_hits. cbn [fst snd].
        destruct (det l i text); repeat constructor.
      * intros [d det] [e det'] a b Hde Ha Hb. simpl in Hde.
        apply detector_hits_in in Ha. apply detector_hits_in in Hb.
        destruct Ha as [x [-> _]]. destruct Hb as [y [-> _]]. simpl. auto.
    + intros [f fam] [g fam'] a b Hfg Ha Hb. simpl in Hfg.
      apply family_hits_in in Ha. apply family_hits_in in Hb.
      destruct Ha as [d [det [x [-> _]]]]. destruct Hb as [e [det' [y [-> _]]]]. simpl. auto.
  - intros [i l] [j l'] a b Hij Ha Hb. simpl in Hij.
    apply line_hits_in in Ha. apply line_hits_in in Hb.
    destruct Ha as [f [fam [d [det [x [-> _]]]]]].
    destruct Hb as [g [fam' [e [det' [y [-> _]]]]]]. simpl. auto.
Qed.

(* ------------------------------------------------------------------ *)
(** ** Aggregation order and line spans of the engine *)

(** C1.  For every document text, the engine's issue list is the tagged
    list [tagged_issues text] with its tags dropped; the tags are strictly
    increasing in the lexicographic order (line index, family index in the
    order image, form, other, aria/role, tab-index, semantic-HTML, detector
    index within its family); and an issue is in the list, with tag
    (i, f, d), exactly when detector d of family f fires on line i.  So
    every registered detector that fires contributes to the result. *)
Theorem checkAccessibilityIssues_ordered (text : string) :
  registered_families
    = [image_family; form_family; other_family; aria_family; tab_family; semantic_family]
  /\ map snd (tagged_issues text) = fst (AccessibilityChecker.checkAccessibilityIssues text)
  /\ StronglySorted tag_lt (tagged_issues text)
  /\ (forall i f d x,
        In (i, f, d, x) (tagged_issues text) <->
        exists l fam det, nth_error (split_nl text) i = Some l
          /\ nth_error registered_families f = Some fam
          /\ nth_error fam d = Some det /\ det l i text = Some x).
Proof.
  split; [reflexivity|]. split; [apply tagged_issues_engine|].
  split; [apply tagged_issues_sorted|].
  intros i f d x. rewrite tagged_issues_in. split.
  - intros [i' [l [f' [fam [d' [det [x' [Ht [Hl [Hf [Hd Hx]]]]]]]]]]].
    injection Ht as -> -> -> ->. exists l, fam, det. auto.
  - intros [l [fam [det [Hl [Hf [Hd Hx]]]]]].
    exists i, l, f, fam, d, det, x. auto.
Qed.

Lemma checkAccessibilityIssues_ordered_witness :
  exists l fam det,
    nth_error (split_nl div_button_positive_tabindex) 0 = Some l
    /\ nth_error registered_families 3 = Some fam
    /\ nth_error fam 7 = Some det
    /\ det l 0 div_button_positive_tabindex
       = Some (mkIssue 1 "Collapsible element missing aria-expanded attribute" "MEDIUM"
                 (mkRange 0 0 0 (String.length div_button_positive_tabindex))).
Proof.
  destruct (checkAccessibilityIssues_ordered div_button_positive_tabindex) as [_ [_ [_ H]]].
  refine (proj1 (H 0 3 7 (mkIssue 1 "Collapsible element missing aria-expanded attribute"
    "MEDIUM" (mkRange 0 0 0 (String.length div_button_positive_tabindex)))) _).
  vm_compute. left. reflexivity.
Defined.

(** C9.  Every detector the engine runs returns, when it fires on line
    [l] with zero-based index [n], an issue whose range is
    (n, 0, n, length of the untrimmed [l]) and whose [line] field is
    [n + 1]; consequently every issue of the engine's result spans the
    whole of the physical line it was found on. *)
Theorem engine_issues_span_whole_line (text : string) :
  Forall (fun fam => Forall detector_spans_line fam) registered_families
  /\ (forall x, In x (fst (AccessibilityChecker.checkAccessibilityIssues text)) ->
        exists i l, nth_error (split_nl text) i = Some l /\ spans_whole_line l i x).
Proof.
  split; [exact registered_detectors_span_line|].
  intros x Hx. rewrite <- tagged_issues_engine in Hx.
  apply in_map_iff in Hx. destruct Hx as [t [Ht Hin]].
  apply tagged_issues_in in Hin.
  destruct Hin as [i [l [f [fam [d [det [y [-> [Hl [Hf [Hd Hy]]]]]]]]]]].
  simpl in Ht. subst y. exists i, l. split; [exact Hl|].
  pose proof registered_detectors_span_line as Hall.
  rewrite Forall_forall in Hall. specialize (Hall fam (nth_error_In _ _ Hf)).
  rewrite Forall_forall in Hall. exact (Hall det (nth_error_In _ _ Hd) l i text x Hy).
Qed.

Lemma engine_issues_span_whole_line_witness :
  exists i l, nth_error (split_nl div_button_positive_tabindex) i = Some l
    /\ spans_whole_line l i
         (mkIssue 1 "Collapsible element missing aria-expanded attribute" "MEDIUM"
            (mkRange 0 0 0 (String.length div_button_positive_tabindex))).
Proof.
  apply (proj2 (engine_issues_span_whole_line div_button_positive_tabindex)).
  vm_compute. left. reflexivity.
Defined.

(* ------------------------------------------------------------------ *)
(** ** Concrete instances of the general statements *)

Lemma checkImages_missing_or_empty_alt_witness :
  ImageChecker.checkImages img_no_alt 4 = [missing_alt_issue img_no_alt 4]
  /\ ImageChecker.checkImageAltAttributes img_empty_alt 4 = None
  /\ ImageChecker.checkImages img_empty_alt 4 = [empty_alt_issue img_empty_alt 4].
Proof.
  split.
  - apply (proj1 (checkImages_missing_or_empty_alt img_no_alt 4)); vm_compute; reflexivity.
  - apply (proj2 (checkImages_missing_or_empty_alt img_empty_alt 4)).
    left. vm_compute. reflexivity.
Defined.

Lemma getSeverity_total_distinct_witness :
  AccessibilityChecker.getSeverity "CRITICAL" = Information.
Proof.
  apply (proj1 (proj2 (proj2 (proj2 getSeverity_total_distinct)))); discriminate.
Defined.

Lemma checkHeadingStructure_unreachable_witness :
  OtherAccessibilityChecker.checkHeadingStructure "<h1>Title</h1>" 0 heading_document = None.
Proof.
  apply checkHeadingStructure_unreachable. vm_compute. left. reflexivity.
Defined.

Lemma fixSpecificImageTag_no_edit_witness :
  AltTagAutoFixer.fixSpecificImageTag failing_env 0 img_no_alt = None
  /\ AltTagAutoFixer.applyIfPresent [img_no_alt]
       (AltTagAutoFixer.fixSpecificImageTag failing_env 0 img_no_alt) = [img_no_alt].
Proof.
  apply fixSpecificImageTag_no_edit. right. right. right. intros prompt. simpl. exact I.
Defined.

(* ------------------------------------------------------------------ *)
(** ** More lemmas on the string primitives *)

Lemma trim_end_idem (s : string) : trim_end (trim_end s) = trim_end s.
Proof.
  induction s as [|c s IH]; [reflexivity|]. simpl.
  destruct (trim_end s) as [|c' r] eqn:E.
  - destruct (is_ws c) eqn:W; simpl; [reflexivity|]. rewrite W. reflexivity.
  - change (trim_end (String c (String c' r)))
      with (match trim_end (String c' r) with
            | EmptyString => if is_ws c then EmptyString else String c EmptyString
            | r0 => String c r0 end).
    rewrite IH. reflexivity.
Qed.

Lemma trim_start_length_lt (c : ascii) (s : string) :
  String.length (trim_start s) < String.length (String c s).
Proof. pose proof (trim_start_length s). simpl. lia. Qed.

Lemma trim_start_fixed_head (c : ascii) (s : string) :
  trim_start (String c s) = String c s -> is_ws c = false.
Proof.
  simpl. destruct (is_ws c) eqn:W; [|reflexivity].
  intros H. pose proof (trim_start_length_lt c s) as L. rewrite H in L. lia.
Qed.

Lemma trim_start_trim_end (s : string) :
  trim_start s = s -> trim_start (trim_end s) = trim_end s.
Proof.
  destruct s as [|c s]; [reflexivity|]. intros H.
  apply trim_start_fixed_head in H. simpl.
  destruct (trim_end s) as [|c' r]; simpl.
  - rewrite H. simpl. rewrite H. reflexivity.
  - rewrite H. reflexivity.
Qed.

Lemma trim_start_idem (s : string) : trim_start (trim_start s) = trim_start s.
Proof.
  induction s as [|c s IH]; [reflexivity|]. simpl.
  destruct (is_ws c) eqn:W; [exact IH|]. simpl. rewrite W. reflexivity.
Qed.

(** [trim] is idempotent. *)
Lemma trim_idem (s : string) : trim (trim s) = trim s.
Proof.
  unfold trim. rewrite trim_start_trim_end by apply trim_start_idem.
  apply trim_end_idem.
Qed.

Lemma substring_split (s : string) (k : nat) :
  k <= String.length s ->
  substring 0 k s ++ substring k (String.length s - k) s = s.
Proof.
  revert k. induction s as [|c s IH]; intros k Hk.
  - destruct k; [reflexivity | simpl in Hk; lia].
  - destruct k as [|k]; simpl.
    + f_equal.
      clear IH Hk. induction s as [|c' s IH']; [reflexivity|]. simpl. f_equal. exact IH'.
    + f_equal. apply IH. simpl in Hk. lia.
Qed.

Lemma substring_length_full (s : string) (n l : nat) :
  String.length (substring n l s) = l -> l = 0 \/ n + l <= String.length s.
Proof.
  revert n l. induction s as [|c s IH]; intros n l H.
  - destruct n, l; simpl in H; auto; discriminate.
  - destruct n as [|n], l as [|l]; simpl in H |- *; try lia.
    + injection H as H. destruct (IH 0 l H); lia.
    + destruct (IH n (S l) H); lia.
Qed.

Lemma substring_starts_with (s : string) (n l l' : nat) :
  l <= l' -> starts_with (substring n l s) (substring n l' s) = true.
Proof.
  revert n l l'. induction s as [|c s IH]; intros n l l' H.
  - destruct n, l, l'; reflexivity.
  - destruct n as [|n].
    + destruct l as [|l]; [reflexivity|]. destruct l' as [|l']; [lia|].
      simpl. rewrite Ascii.eqb_refl. simpl. apply IH. lia.
    + simpl. apply IH. exact H.
Qed.

(** Cutting a line before the [>] that [indexOf] finds keeps the [>]. *)
Lemma cut_at_index (s : string) (a b : nat) :
  String.index a ">" s = Some b ->
  substring 0 b s ++ substring b (String.length s - b) s = s
  /\ starts_with ">" (substring b (String.length s - b) s) = true.
Proof.
  intros H. pose proof (index_correct1 _ _ _ _ H) as E. simpl in E.
  assert (L : b + 1 <= String.length s).
  { destruct (substring_length_full s b 1) as [C|C]; [rewrite E; reflexivity | lia | lia]. }
  split; [apply substring_split; lia|].
  rewrite <- E at 1. apply substring_starts_with. lia.
Qed.

Lemma includes_app_mid (a p b : string) : includes (a ++ p ++ b) p = true.
Proof. apply includes_spec. exists a, b. reflexivity. Qed.

(** A line into which [ alt="..."] was inserted contains [alt=] after
    trimming. *)
Lemma inserted_alt_trim (before alt after : string) :
  includes (trim (before ++ " alt=" ++ dq ++ alt ++ dq ++ after)) "alt=" = true.
Proof.
  apply includes_trim_r; [discriminate | reflexivity | reflexivity |].
  apply includes_spec. exists (before ++ " "), (dq ++ alt ++ dq ++ after).
  rewrite !sapp_assoc. reflexivity.
Qed.

(* ------------------------------------------------------------------ *)
(** ** Lemmas on the alt-text repair *)

Lemma generateAltText_as_ctx (env : AltTagAutoFixer.Env) (imageSrc : string) :
  AltTagAutoFixer.generateAltText env imageSrc
  = AltTagAutoFixer.generateAltText_ctx env imageSrc None.
Proof. reflexivity. Qed.

Lemma generateAltText_ctx_cases (env : AltTagAutoFixer.Env) (imageSrc : string)
    (context : option string) :
  let r := AltTagAutoFixer.generateAltText_ctx env imageSrc context in
  (AltTagAutoFixer.success r = true
   /\ exists a, AltTagAutoFixer.altText r = Some a /\ a <> EmptyString /\ trim a = a
                /\ AltTagAutoFixer.error r = None)
  \/ (AltTagAutoFixer.success r = false /\ AltTagAutoFixer.altText r = None
      /\ exists e, AltTagAutoFixer.error r = Some e).
Proof.
  unfold AltTagAutoFixer.generateAltText_ctx. cbv zeta.
  destruct (AltTagAutoFixer.initializeOpenAI env); simpl; [|right; eauto].
  destruct (AltTagAutoFixer.complete env _) as [e|[c|]]; simpl; [right; eauto| |right; eauto].
  destruct (nonempty (trim c)) eqn:N; simpl; [|right; eauto].
  left. split; [reflexivity|]. exists (trim c). repeat split.
  - intros E. rewrite E in N. discriminate.
  - apply trim_idem.
Qed.

(** The shape of every edit [fixSpecificImageTag] returns. *)
Lemma fixSpecificImageTag_shape (env : AltTagAutoFixer.Env) (lineNumber : nat)
    (lineText : string) (e : WorkspaceEdit) :
  AltTagAutoFixer.fixSpecificImageTag env lineNumber lineText = Some e ->
  edit_range e = mkRange lineNumber 0 lineNumber (String.length lineText)
  /\ exists beforeAlt afterAlt alt,
       lineText = beforeAlt ++ afterAlt /\ starts_with ">" afterAlt = true
       /\ alt <> EmptyString /\ trim alt = alt
       /\ newText e = beforeAlt ++ " alt=" ++ dq ++ alt ++ dq ++ afterAlt.
Proof.
  intros H. unfold AltTagAutoFixer.fixSpecificImageTag in H. cbv zeta in H.
  destruct (negb _ || _); [discriminate|].
  destruct (match_img_src (trim lineText)) as [src|]; [|discriminate].
  pose proof (generateAltText_ctx_cases env src None) as R. cbv zeta in R.
  rewrite <- generateAltText_as_ctx in R.
  destruct (AltTagAutoFixer.generateAltText env src) as [ok alt err]. simpl in *.
  destruct ok, alt as [a|]; try discriminate.
  destruct R as [[_ [a' [Ha [Hne [Htr _]]]]] | [D _]]; [|discriminate].
  injection Ha as <-.
  destruct (negb (nonempty a)); [discriminate|].
  destruct (String.index 0 "<img" lineText) as [st|]; [|discriminate].
  destruct (String.index st ">" lineText) as [en|] eqn:Ei; [|discriminate].
  injection H as <-. split; [reflexivity|].
  destruct (cut_at_index _ _ _ Ei) as [Hsplit Hstart].
  exists (substring 0 en lineText), (substring en (String.length lineText - en) lineText), a.
  repeat split; auto.
Qed.

Lemma insertion_not_missing_alt (before alt after : string) (n : nat) :
  ImageChecker.checkImageAltAttributes (before ++ " alt=" ++ dq ++ alt ++ dq ++ after) n = None
  /\ AltTagAutoFixer.missing_alt (before ++ " alt=" ++ dq ++ alt ++ dq ++ after) = false.
Proof.
  unfold ImageChecker.checkImageAltAttributes, AltTagAutoFixer.missing_alt. cbv zeta.
  rewrite inserted_alt_trim. rewrite andb_false_r. split; reflexivity.
Qed.




(** The per-line step of the batch passes produces at most one result. *)
Ltac split_batch_step H :=
  repeat (match type of H with
          | context [match ?e with _ => _ end] => destruct e
          end).


Lemma StronglySorted_le1 {A : Type} (R : A -> A -> Prop) (l : list A) :
  length l <= 1 -> StronglySorted R l.
Proof.
  destruct l as [|a [|b l]]; simpl; intros H; [constructor | repeat constructor | lia].
Qed.


Lemma previewsFrom_spec (env : AltTagAutoFixer.Env) (o : AltTagAutoFixer.Oracle)
    (lines : list string) (i : nat) (rest : list string) (p : AltTagAutoFixer.Preview) :
  In p (AltTagAutoFixer.previewsFrom env o lines i rest) ->
  exists line, i <= AltTagAutoFixer.p_lineNumber p
    /\ nth_error rest (AltTagAutoFixer.p_lineNumber p - i) = Some line
    /\ AltTagAutoFixer.missing_alt line = true
    /\ match_img_src (trim line) = Some (AltTagAutoFixer.p_imageSrc p)
    /\ AltTagAutoFixer.p_altText p <> EmptyString
    /\ trim (AltTagAutoFixer.p_altText p) = AltTagAutoFixer.p_altText p.
Proof.
  revert i. induction rest as [|line rest IH]; intros i H; simpl in H; [contradiction|].
  apply in_app_or in H. destruct H as [H|H].
  - destruct (includes (trim line) "<img" && negb (includes (trim line) "alt=")) eqn:Hm;
      [|contradiction].
    destruct (match_img_src (trim line)) as [src|] eqn:Hsrc; [|contradiction].
    pose proof (generateAltText_ctx_cases
                  (AltTagAutoFixer.with_complete env (o i)) src
                  (Some (AltTagAutoFixer.context_of lines i))) as R. cbv zeta in R.
    destruct (AltTagAutoFixer.generateAltText_ctx _ _ _) as [ok alt err]. simpl in *.
    destruct ok, alt as [a|]; try contradiction.
    destruct R as [[_ [a' [Ha [Hne [Htr _]]]]] | [D _]]; [|discriminate].
    injection Ha as <-.
    destruct (nonempty a); [|contradiction].
    destruct H as [<-|[]]. simpl.
    exists line. rewrite Nat.sub_diag. repeat split; auto.
  - destruct (IH (S i) H) as [l [Hij [Hn Hrest]]].
    exists l. split; [lia|]. split; [|exact Hrest].
    replace (AltTagAutoFixer.p_lineNumber p - i)
      with (S (AltTagAutoFixer.p_lineNumber p - S i)) by lia. exact Hn.
Qed.

Lemma previewsFrom_sorted (env : AltTagAutoFixer.Env) (o : AltTagAutoFixer.Oracle)
    (lines : list string) (i : nat) (rest : list string) :
  StronglySorted (fun p1 p2 => AltTagAutoFixer.p_lineNumber p1 < AltTagAutoFixer.p_lineNumber p2)
    (AltTagAutoFixer.previewsFrom env o lines i rest).
Proof.
  revert i. induction rest as [|line rest IH]; intros i; simpl; [constructor|].
  apply StronglySorted_app; [| apply IH |].
  - apply StronglySorted_le1.
    repeat (match goal with |- context [match ?e with _ => _ end] => destruct e end);
      simpl; lia.
  - intros a b Ha Hb.
    assert (Hai : AltTagAutoFixer.p_lineNumber a = i).
    { repeat (match type of Ha with context [match ?e with _ => _ end] => destruct e end);
        simpl in Ha; try contradiction.
      destruct Ha as [<-|[]]. reflexivity. }
    destruct (previewsFrom_spec _ _ _ _ _ _ Hb) as [l [Hj _]].
    rewrite Hai. lia.
Qed.

Lemma insertion_refused (env : AltTagAutoFixer.Env) (n : nat) (before alt after : string) :
  AltTagAutoFixer.fixSpecificImageTag env n (before ++ " alt=" ++ dq ++ alt ++ dq ++ after) = None
  /\ AltTagAutoFixer.getSpecificImagePreview env (before ++ " alt=" ++ dq ++ alt ++ dq ++ after)
     = None.
Proof.
  unfold AltTagAutoFixer.fixSpecificImageTag, AltTagAutoFixer.getSpecificImagePreview.
  cbv zeta. rewrite inserted_alt_trim, orb_true_r. split; reflexivity.
Qed.

Lemma missing_alt_guard (line : string) :
  (negb (includes (trim line) "<img") || includes (trim line) "alt=") = false ->
  AltTagAutoFixer.missing_alt line = true.
Proof.
  unfold AltTagAutoFixer.missing_alt. cbv zeta.
  destruct (includes (trim line) "<img"), (includes (trim line) "alt="); simpl; congruence.
Qed.



(* ------------------------------------------------------------------ *)
(** ** Properties of the alt-text repair *)

(** [generateAltText] either succeeds with a non-empty alt text that has
    no surrounding whitespace and no error, or fails with no alt text and
    an error message; it never throws. *)
Theorem generateAltText_outcome (env : AltTagAutoFixer.Env) (imageSrc : string)
    (context : option string) :
  let r := AltTagAutoFixer.generateAltText_ctx env imageSrc context in
  (AltTagAutoFixer.success r = true
   /\ exists a, AltTagAutoFixer.altText r = Some a /\ a <> EmptyString /\ trim a = a
                /\ AltTagAutoFixer.error r = None)
  \/ (AltTagAutoFixer.success r = false /\ AltTagAutoFixer.altText r = None
      /\ exists e, AltTagAutoFixer.error r = Some e).
Proof. exact (generateAltText_ctx_cases env imageSrc context). Qed.



(** The fix is idempotent: the repaired line is no longer reported as an
    image without alt text, and neither the fix nor the preview applies to
    it again, whatever the remote model answers. *)
Theorem fixSpecificImageTag_idempotent (env : AltTagAutoFixer.Env) (lineNumber : nat)
    (lineText : string) (e : WorkspaceEdit) :
  AltTagAutoFixer.fixSpecificImageTag env lineNumber lineText = Some e ->
  ImageChecker.checkImageAltAttributes (newText e) lineNumber = None
  /\ AltTagAutoFixer.missing_alt (newText e) = false
  /\ forall (env' : AltTagAutoFixer.Env) (n : nat),
       AltTagAutoFixer.fixSpecificImageTag env' n (newText e) = None
       /\ AltTagAutoFixer.getSpecificImagePreview env' (newText e) = None.
Proof.
  intros H.
  destruct (fixSpecificImageTag_shape _ _ _ _ H) as [_ [b [a [alt [_ [_ [_ [_ Hn]]]]]]]].
  rewrite Hn. destruct (insertion_not_missing_alt b alt a lineNumber) as [H1 H2].
  split; [exact H1|]. split; [exact H2|]. intros env' n. apply insertion_refused.
Qed.

Lemma fixSpecificImageTag_idempotent_witness :
  exists e, AltTagAutoFixer.fixSpecificImageTag answering_env 0 img_no_alt = Some e
  /\ (ImageChecker.checkImageAltAttributes (newText e) 0 = None
      /\ AltTagAutoFixer.missing_alt (newText e) = false
      /\ forall (env' : AltTagAutoFixer.Env) (n : nat),
           AltTagAutoFixer.fixSpecificImageTag env' n (newText e) = None
           /\ AltTagAutoFixer.getSpecificImagePreview env' (newText e) = None).
Proof.
  eexists. split; [reflexivity|].
  apply (fixSpecificImageTag_idempotent answering_env 0 img_no_alt). reflexivity.
Defined.

(** A preview is only produced for a line with an [<img] and no [alt=]:
    its source is the [src] of the trimmed line and its alt text is
    non-empty and trimmed. *)
Theorem getSpecificImagePreview_spec (env : AltTagAutoFixer.Env) (lineText imageSrc alt : string) :
  AltTagAutoFixer.getSpecificImagePreview env lineText = Some (imageSrc, alt) ->
  AltTagAutoFixer.missing_alt lineText = true
  /\ match_img_src (trim lineText) = Some imageSrc
  /\ alt <> EmptyString /\ trim alt = alt.
Proof.
  unfold AltTagAutoFixer.getSpecificImagePreview. cbv zeta. intros H.
  destruct (negb (includes (trim lineText) "<img") || includes (trim lineText) "alt=") eqn:G;
    [discriminate|].
  destruct (match_img_src (trim lineText)) as [src|]; [|discriminate].
  pose proof (generateAltText_ctx_cases env src None) as R. cbv zeta in R.
  rewrite <- generateAltText_as_ctx in R.
  destruct (AltTagAutoFixer.generateAltText env src) as [ok alt' err]. simpl in *.
  destruct ok, alt' as [a|]; try discriminate.
  destruct R as [[_ [a' [Ha [Hne [Htr _]]]]] | [D _]]; [|discriminate].
  injection Ha as <-.
  destruct (nonempty a); [|discriminate].
  injection H as <- <-. split; [apply missing_alt_guard; exact G|]. auto.
Qed.

Lemma getSpecificImagePreview_spec_witness :
  AltTagAutoFixer.getSpecificImagePreview answering_env img_no_alt = Some ("logo.png", "A cat")
  /\ (AltTagAutoFixer.missing_alt img_no_alt = true
      /\ match_img_src (trim img_no_alt) = Some "logo.png"
      /\ "A cat" <> EmptyString /\ trim "A cat" = "A cat").
Proof.
  split; [reflexivity|]. apply (getSpecificImagePreview_spec answering_env). reflexivity.
Defined.



(** The previews of the batch command are in increasing line order, each
    for a line with an [<img] and no [alt=], with the [src] of that line
    and a non-empty trimmed alt text. *)
Theorem getMissingAltTagsPreview_spec (env : AltTagAutoFixer.Env) (o : AltTagAutoFixer.Oracle)
    (text : string) :
  StronglySorted
    (fun p1 p2 => AltTagAutoFixer.p_lineNumber p1 < AltTagAutoFixer.p_lineNumber p2)
    (AltTagAutoFixer.getMissingAltTagsPreview env o text)
  /\ forall p, In p (AltTagAutoFixer.getMissingAltTagsPreview env o text) ->
     exists line, nth_error (split_nl text) (AltTagAutoFixer.p_lineNumber p) = Some line
       /\ AltTagAutoFixer.missing_alt line = true
       /\ match_img_src (trim line) = Some (AltTagAutoFixer.p_imageSrc p)
       /\ AltTagAutoFixer.p_altText p <> EmptyString
       /\ trim (AltTagAutoFixer.p_altText p) = AltTagAutoFixer.p_altText p.
Proof.
  unfold AltTagAutoFixer.getMissingAltTagsPreview. cbv zeta.
  split; [apply previewsFrom_sorted|].
  intros p Hin. destruct (previewsFrom_spec _ _ _ _ _ _ Hin) as [l [_ [Hn Hrest]]].
  rewrite Nat.sub_0_r in Hn. exists l. auto.
Qed.

Lemma getMissingAltTagsPreview_spec_witness :
  AltTagAutoFixer.getMissingAltTagsPreview answering_env answering_oracle two_images
  = [AltTagAutoFixer.mkPreview 0 "logo.png" "A dog"; AltTagAutoFixer.mkPreview 2 "b.png" "A dog"]
  /\ (StronglySorted
        (fun p1 p2 => AltTagAutoFixer.p_lineNumber p1 < AltTagAutoFixer.p_lineNumber p2)
        (AltTagAutoFixer.getMissingAltTagsPreview answering_env answering_oracle two_images)
      /\ forall p,
         In p (AltTagAutoFixer.getMissingAltTagsPreview answering_env answering_oracle two_images) ->
         exists line, nth_error (split_nl two_images) (AltTagAutoFixer.p_lineNumber p) = Some line
           /\ AltTagAutoFixer.missing_alt line = true
           /\ match_img_src (trim line) = Some (AltTagAutoFixer.p_imageSrc p)
           /\ AltTagAutoFixer.p_altText p <> EmptyString
           /\ trim (AltTagAutoFixer.p_altText p) = AltTagAutoFixer.p_altText p).
Proof.
  split; [vm_compute; reflexivity|].
  exact (getMissingAltTagsPreview_spec answering_env answering_oracle two_images).
Defined.

(* ------------------------------------------------------------------ *)
(** ** Properties of the two commands of [ImageChecker] *)





(* ------------------------------------------------------------------ *)
(** ** The extension's own checker *)

Lemma collect_cons_app (x y : list AccessibilityIssue) (o : option AccessibilityIssue)
    (os : list (option AccessibilityIssue)) :
  x = collect [o] -> y = collect os -> (x ++ y)%list = collect (o :: os).
Proof. intros -> ->. destruct o; reflexivity. Qed.

Lemma map_snd_forall {A B C : Type} (f : A -> B) (g : A -> C) (h : C -> B) (L : list A) :
  Forall (fun p => f p = h (g p)) L -> map f L = map h (map g L).
Proof. induction 1; simpl; congruence. Qed.

Ltac extension_piece :=
  unfold Extension.push_if, ImageChecker.checkImageAltAttributes,
    ImageChecker.checkEmptyAltAttributes, FormElementsChecker.checkFormInputLabels,
    OtherAccessibilityChecker.checkHeadingStructure,
    OtherAccessibilityChecker.checkHtmlLangAttribute,
    OtherAccessibilityChecker.checkKeyboardAccessibility, FormElementsChecker.checkFormLabels,
    OtherAccessibilityChecker.checkColorOnlyInformation,
    OtherAccessibilityChecker.checkFocusIndicators;
  cbv zeta;
  repeat (match goal with |- context [if ?b then _ else _] => destruct b end);
  reflexivity.

Lemma lineChecks_detectors_eq (l : string) (n : nat) (text : string) :
  map fst (Extension.lineChecks l n text)
  = collect
      [option_map (fun j => mkIssue (line j) "Missing alt attribute on image" (severity j)
                              (range j))
         (ImageChecker.checkImageAltAttributes l n);
       ImageChecker.checkEmptyAltAttributes l n;
       FormElementsChecker.checkFormInputLabels l n;
       OtherAccessibilityChecker.checkHeadingStructure l n text;
       OtherAccessibilityChecker.checkHtmlLangAttribute l n;
       OtherAccessibilityChecker.checkKeyboardAccessibility l n;
       FormElementsChecker.checkFormLabels l n;
       OtherAccessibilityChecker.checkColorOnlyInformation l n;
       OtherAccessibilityChecker.checkFocusIndicators l n].
Proof.
  unfold Extension.lineChecks. cbv zeta. rewrite !map_app.
  repeat (apply collect_cons_app; [extension_piece|]). extension_piece.
Qed.

Lemma lineChecks_diagnostics (l : string) (n : nat) (text : string) :
  map snd (Extension.lineChecks l n text)
  = map (fun i => AccessibilityChecker.createDiagnostic (range i) (issue i)
                    (AccessibilityChecker.getSeverity (severity i)))
      (map fst (Extension.lineChecks l n text)).
Proof.
  apply map_snd_forall. unfold Extension.lineChecks. cbv zeta.
  repeat (apply Forall_app; split);
    unfold Extension.push_if;
    repeat (match goal with |- context [if ?b then _ else _] => destruct b end);
    repeat constructor.
Qed.

Lemma heading_guard_false (text l : string) :
  In l (split_nl text) -> includes (trim l) "<h1>" && negb (includes text "<h1>") = false.
Proof.
  intros Hin. destruct (includes (trim l) "<h1>") eqn:Eh1; [|reflexivity].
  assert (Ht : includes text "<h1>" = true).
  { destruct (split_nl_sub text l Hin) as [a [b ->]].
    apply includes_widen, includes_trim_l. exact Eh1. }
  rewrite Ht. reflexivity.
Qed.

Lemma extension_forEachLine_in (text : string) (lines : list string) (k : nat)
    (x : AccessibilityIssue) :
  In x (map fst (Extension.forEachLine lines k text)) ->
  exists j l, nth_error lines j = Some l /\ In x (map fst (Extension.lineChecks l (k + j) text)).
Proof.
  revert k. induction lines as [|l ls IH]; intros k H; simpl in H; [contradiction|].
  rewrite map_app in H. apply in_app_or in H. destruct H as [H|H].
  - exists 0, l. rewrite Nat.add_0_r. auto.
  - destruct (IH (S k) H) as [j [l' [Hj Hx]]].
    exists (S j), l'. rewrite <- Nat.add_succ_comm. auto.
Qed.

Lemma engine_forEachLine_in (text : string) (lines : list string) (k j : nat) (l : string)
    (x : AccessibilityIssue) :
  nth_error lines j = Some l -> In x (AccessibilityChecker.allIssues l (k + j) text) ->
  In x (AccessibilityChecker.forEachLine lines k text).
Proof.
  revert k j. induction lines as [|l0 ls IH]; intros k [|j] Hj Hx; simpl in Hj |- *;
    try discriminate.
  - injection Hj as <-. rewrite Nat.add_0_r in Hx. apply in_or_app. left. exact Hx.
  - apply in_or_app. right. apply (IH (S k) j Hj). rewrite Nat.add_succ_comm. exact Hx.
Qed.

(** Every issue of the extension's own checker on line [i] is an issue the
    engine reports on the same line, except that its missing-alt message
    is the engine's without the trailing dots. *)
Theorem extension_issues_in_engine (text : string) (x : AccessibilityIssue) :
  In x (fst (Extension.checkAccessibilityIssues text)) ->
  In x (fst (AccessibilityChecker.checkAccessibilityIssues text))
  \/ (issue x = "Missing alt attribute on image"
      /\ In (mkIssue (line x) "Missing alt attribute on image...." (severity x) (range x))
            (fst (AccessibilityChecker.checkAccessibilityIssues text))).
Proof.
  unfold Extension.checkAccessibilityIssues, AccessibilityChecker.checkAccessibilityIssues.
  cbn [fst]. intros H.
  destruct (extension_forEachLine_in _ _ _ _ H) as [j [l [Hj Hx]]].
  rewrite lineChecks_detectors_eq in Hx. apply in_collect in Hx.
  assert (Hin : forall y, In y (AccessibilityChecker.allIssues l (0 + j) text) ->
                 In y (AccessibilityChecker.forEachLine (split_nl text) 0 text))
    by (intros y Hy; exact (engine_forEachLine_in _ _ _ _ _ _ Hj Hy)).
  unfold AccessibilityChecker.allIssues, ImageChecker.checkImages,
    FormElementsChecker.checkFormElements, OtherAccessibilityChecker.checkOtherAccessibility
    in Hin.
  cbv zeta in Hin. simpl Nat.add in *.
  simpl in Hx.
  destruct Hx as [Hx|[Hx|[Hx|[Hx|[Hx|[Hx|[Hx|[Hx|[Hx|[]]]]]]]]]];
    [|left; apply Hin;
      repeat (rewrite in_app_iff || rewrite in_collect); cbn [In]; tauto ..].
  right.
  destruct (ImageChecker.checkImageAltAttributes l j) as [y|] eqn:Ey; [|discriminate].
  injection Hx as <-. simpl.
  assert (Hy : y = mkIssue (line y) "Missing alt attribute on image...." (severity y) (range y)).
  { unfold ImageChecker.checkImageAltAttributes in Ey. cbv zeta in Ey.
    destruct (_ && _); [|discriminate]. injection Ey as <-. reflexivity. }
  split; [reflexivity|]. rewrite <- Hy. apply Hin.
  repeat (rewrite in_app_iff || rewrite in_collect). cbn [In]. left. left. rewrite ?Ey. reflexivity.
Qed.

Lemma extension_issues_in_engine_witness :
  In (mkIssue 1 "Missing alt attribute on image" "HIGH" (mkRange 0 0 0 (String.length img_no_alt)))
     (fst (Extension.checkAccessibilityIssues img_no_alt))
  /\ (In (mkIssue 1 "Missing alt attribute on image" "HIGH"
            (mkRange 0 0 0 (String.length img_no_alt)))
         (fst (AccessibilityChecker.checkAccessibilityIssues img_no_alt))
      \/ (issue (mkIssue 1 "Missing alt attribute on image" "HIGH"
                   (mkRange 0 0 0 (String.length img_no_alt)))
          = "Missing alt attribute on image"
          /\ In (mkIssue 1 "Missing alt attribute on image...." "HIGH"
                   (mkRange 0 0 0 (String.length img_no_alt)))
                (fst (AccessibilityChecker.checkAccessibilityIssues img_no_alt)))).
Proof.
  split; [vm_compute; left; reflexivity|].
  apply (extension_issues_in_engine img_no_alt). vm_compute. left. reflexivity.
Defined.

(** The extension's own checker builds each diagnostic from its issue as
    the engine's [createDiagnostic] and [getSeverity] would (HIGH gives
    Error, MEDIUM Warning, LOW Information); the file watcher publishes
    these diagnostics, and only for a file name ending in [.html] or [.htm]. *)
Theorem extension_diagnostics (text : string) :
  snd (Extension.checkAccessibilityIssues text)
  = map (fun i => AccessibilityChecker.createDiagnostic (range i) (issue i)
                    (AccessibilityChecker.getSeverity (severity i)))
      (fst (Extension.checkAccessibilityIssues text))
  /\ forall fileName ds, Extension.htmlFileWatcher fileName text = Some ds ->
       (Extension.ends_with fileName ".html" || Extension.ends_with fileName ".htm") = true
       /\ ds = map (fun i => AccessibilityChecker.createDiagnostic (range i) (issue i)
                               (AccessibilityChecker.getSeverity (severity i)))
                 (fst (Extension.checkAccessibilityIssues text)).
Proof.
  assert (Hd : snd (Extension.checkAccessibilityIssues text)
               = map (fun i => AccessibilityChecker.createDiagnostic (range i) (issue i)
                                 (AccessibilityChecker.getSeverity (severity i)))
                   (fst (Extension.checkAccessibilityIssues text))).
  { unfold Extension.checkAccessibilityIssues. cbn [fst snd].
    generalize 0. induction (split_nl text) as [|l ls IH]; intros k; [reflexivity|].
    cbn [Extension.forEachLine]. rewrite !map_app, lineChecks_diagnostics, IH. reflexivity. }
  split; [exact Hd|].
  intros fileName ds. unfold Extension.htmlFileWatcher.
  destruct (_ || _); [|discriminate]. intros H. injection H as <-. auto.
Qed.

Lemma extension_diagnostics_witness :
  Extension.htmlFileWatcher "index.htm" img_no_alt
  = Some [AccessibilityChecker.createDiagnostic (mkRange 0 0 0 (String.length img_no_alt))
            "Missing alt attribute on image" Error]
  /\ (snd (Extension.checkAccessibilityIssues img_no_alt)
      = map (fun i => AccessibilityChecker.createDiagnostic (range i) (issue i)
                        (AccessibilityChecker.getSeverity (severity i)))
          (fst (Extension.checkAccessibilityIssues img_no_alt))).
Proof.
  split; [vm_compute; reflexivity|].
  exact (proj1 (extension_diagnostics img_no_alt)).
Defined.

(** The extension's own checker never reports "Multiple h1 tags found":
    its guard needs [<h1>] in the trimmed line and not in the document,
    and every line is part of the document. *)
Theorem extension_heading_unreachable (text : string) (x : AccessibilityIssue) :
  In x (fst (Extension.checkAccessibilityIssues text)) ->
  issue x <> "Multiple h1 tags found - page should have only one h1".
Proof.
  unfold Extension.checkAccessibilityIssues. cbn [fst]. intros H.
  destruct (extension_forEachLine_in _ _ _ _ H) as [j [l [Hj Hx]]].
  pose proof (heading_guard_false text l (nth_error_In _ _ Hj)) as Hg.
  rewrite lineChecks_detectors_eq in Hx. apply in_collect in Hx. cbn [In] in Hx.
  destruct Hx as [Hx|[Hx|[Hx|[Hx|[Hx|[Hx|[Hx|[Hx|[Hx|[]]]]]]]]]];
    unfold ImageChecker.checkImageAltAttributes, ImageChecker.checkEmptyAltAttributes,
      FormElementsChecker.checkFormInputLabels,
      OtherAccessibilityChecker.checkHeadingStructure,
      OtherAccessibilityChecker.checkHtmlLangAttribute,
      OtherAccessibilityChecker.checkKeyboardAccessibility, FormElementsChecker.checkFormLabels,
      OtherAccessibilityChecker.checkColorOnlyInformation,
      OtherAccessibilityChecker.checkFocusIndicators in Hx;
    cbv zeta in Hx; rewrite ?Hg in Hx;
    repeat (match type of Hx with context [if ?b then _ else _] => destruct b end);
    simpl in Hx; try discriminate Hx; injection Hx as <-; simpl; discriminate.
Qed.

Lemma extension_heading_unreachable_witness :
  In (mkIssue 1 "Missing alt attribute on image" "HIGH" (mkRange 0 0 0 (String.length img_no_alt)))
     (fst (Extension.checkAccessibilityIssues img_no_alt))
  /\ issue (mkIssue 1 "Missing alt attribute on image" "HIGH"
              (mkRange 0 0 0 (String.length img_no_alt)))
     <> "Multiple h1 tags found - page should have only one h1".
Proof.
  split; [vm_compute; left; reflexivity|].
  apply (extension_heading_unreachable img_no_alt). vm_compute. left. reflexivity.
Defined.

(** On every line the extension's own checker reports, in this order, what
    nine of the engine's detectors report: the image, form and
    other-family detectors, with the label check moved after the keyboard
    check and the missing-alt message shortened; it runs none of the ARIA,
    tabindex or semantic-HTML detectors. *)
Theorem extension_lineChecks_detectors (l : string) (n : nat) (text : string) :
  map fst (Extension.lineChecks l n text)
  = collect
      [option_map (fun j => mkIssue (line j) "Missing alt attribute on image" (severity j)
                              (range j))
         (ImageChecker.checkImageAltAttributes l n);
       ImageChecker.checkEmptyAltAttributes l n;
       FormElementsChecker.checkFormInputLabels l n;
       OtherAccessibilityChecker.checkHeadingStructure l n text;
       OtherAccessibilityChecker.checkHtmlLangAttribute l n;
       OtherAccessibilityChecker.checkKeyboardAccessibility l n;
       FormElementsChecker.checkFormLabels l n;
       OtherAccessibilityChecker.checkColorOnlyInformation l n;
       OtherAccessibilityChecker.checkFocusIndicators l n].
Proof. exact (lineChecks_detectors_eq l n text). Qed.

(* ------------------------------------------------------------------ *)
(** ** Severities and blank lines in the engine *)

Lemma engine_issue_source (text : string) (x : AccessibilityIssue) :
  In x (fst (AccessibilityChecker.checkAccessibilityIssues text)) ->
  exists i l fam det, nth_error (split_nl text) i = Some l
    /\ In fam registered_families /\ In det fam /\ det l i text = Some x.
Proof.
  intros Hx. rewrite <- tagged_issues_engine in Hx.
  apply in_map_iff in Hx. destruct Hx as [t [Ht Hin]].
  apply tagged_issues_in in Hin.
  destruct Hin as [i [l [f [fam [d [det [y [-> [Hl [Hf [Hd Hy]]]]]]]]]]].
  simpl in Ht. subst y. exists i, l, fam, det.
  repeat split; auto; eapply nth_error_In; eassumption.
Qed.

Ltac unfold_detectors_in H :=
  unfold ImageChecker.checkImageAltAttributes, ImageChecker.checkEmptyAltAttributes,
    FormElementsChecker.checkFormInputLabels, FormElementsChecker.checkFormLabels,
    OtherAccessibilityChecker.checkHeadingStructure,
    OtherAccessibilityChecker.checkHtmlLangAttribute,
    OtherAccessibilityChecker.checkKeyboardAccessibility,
    OtherAccessibilityChecker.checkColorOnlyInformation,
    OtherAccessibilityChecker.checkFocusIndicators,
    AriaLabelRoleChecker.checkMissingAriaLabel, AriaLabelRoleChecker.checkEmptyAriaLabel,
    AriaLabelRoleChecker.checkRedundantAriaLabel, AriaLabelRoleChecker.checkInvalidRole,
    AriaLabelRoleChecker.checkRedundantRole,
    AriaLabelRoleChecker.checkMissingAriaLabelledbyReference,
    AriaLabelRoleChecker.checkMissingAriaDescribedbyReference,
    AriaLabelRoleChecker.checkMissingAriaExpanded,
    AriaLabelRoleChecker.checkIncorrectAriaExpanded,
    AriaLabelRoleChecker.checkMissingAriaHiddenOnDecorative,
    AriaLabelRoleChecker.checkConflictingAriaHiddenAndRole,
    AriaLabelRoleChecker.checkMissingAriaDisabled,
    AriaLabelRoleChecker.checkMissingAriaRequired,
    AriaLabelRoleChecker.checkMissingAriaInvalid,
    AriaLabelRoleChecker.checkEmptyButtonElements,
    TabIndexChecker.checkNegativeTabIndex, TabIndexChecker.checkTabIndexZeroOnNonInteractive,
    TabIndexChecker.checkMissingTabIndexOnCustomInteractive,
    TabIndexChecker.checkTabIndexOnPresentationRole, TabIndexChecker.checkTabIndexOnNoneRole,
    TabIndexChecker.checkTabIndexOnAriaHidden,
    TabIndexChecker.checkRedundantTabIndexOnFocusable, TabIndexChecker.checkPositiveTabIndex,
    TabIndexChecker.checkMissingTabIndexOnClickable,
    TabIndexChecker.checkDisabledElementWithTabIndex,
    TabIndexChecker.checkTabIndexOnHiddenElement,
    TabIndexChecker.checkMissingTabIndexOnModalTrigger,
    TabIndexChecker.checkMissingTabIndexOnCustomFormControl,
    TabIndexChecker.checkTabIndexOnDecorativeElement,
    TabIndexChecker.checkInconsistentTabIndexUsage,
    TabIndexChecker.checkTabIndexOnNonInteractiveElement,
    SemanticHtmlChecker.checkHeadingHierarchy, SemanticHtmlChecker.checkHtmlLangAttribute,
    SemanticHtmlChecker.checkListStructure, SemanticHtmlChecker.checkTableStructure,
    SemanticHtmlChecker.checkFormStructure, SemanticHtmlChecker.checkButtonUsage,
    SemanticHtmlChecker.checkLinkUsage, SemanticHtmlChecker.checkLandmarkUsage,
    SemanticHtmlChecker.checkSectioningElements,
    SemanticHtmlChecker.checkNavigationStructure,
    SemanticHtmlChecker.checkDocumentStructure in H;
  cbv zeta in H.

Lemma registered_detectors_rated :
  Forall (fun fam => Forall (fun d : Detector => forall l n text x, d l n text = Some x ->
            severity x = "HIGH" \/ severity x = "MEDIUM" \/ severity x = "LOW") fam)
    registered_families.
Proof.
  unfold registered_families, image_family, form_family, other_family, aria_family,
    tab_family, semantic_family.
  repeat (apply Forall_cons || apply Forall_nil);
    try (let l := fresh "l" in let n := fresh "n" in let t := fresh "t" in
         let x := fresh "x" in let H := fresh "H" in
         intros l n t x H; cbv beta in H; unfold_detectors_in H;
         repeat (match type of H with
                 | context [match ?e with _ => _ end] => destruct e
                 end);
         try discriminate H; injection H as <-; cbn [severity]; tauto).
Qed.

Lemma registered_detectors_blank :
  Forall (fun fam => Forall (fun d : Detector => forall l n text, trim l = EmptyString ->
            d l n text = None) fam)
    registered_families.
Proof.
  unfold registered_families, image_family, form_family, other_family, aria_family,
    tab_family, semantic_family.
  repeat (apply Forall_cons || apply Forall_nil);
    try (let l := fresh "l" in let n := fresh "n" in let t := fresh "t" in
         let H := fresh "H" in let G := fresh "G" in
         intros l n t H; cbv beta;
         match goal with |- ?g = None => remember g as r eqn:G end;
         unfold_detectors_in G; rewrite H in G; simpl in G; subst r;
         repeat (match goal with
                 | |- context [match ?e with _ => _ end] => destruct e
                 end); reflexivity).
Qed.

(** Every issue of the engine has severity HIGH, MEDIUM or LOW, so
    [getSeverity] never takes its [default] branch on the engine's issues. *)
Theorem engine_severities (text : string) (x : AccessibilityIssue) :
  In x (fst (AccessibilityChecker.checkAccessibilityIssues text)) ->
  severity x = "HIGH" \/ severity x = "MEDIUM" \/ severity x = "LOW".
Proof.
  intros Hx. destruct (engine_issue_source text x Hx) as [i [l [fam [det [_ [Hf [Hd Hy]]]]]]].
  pose proof registered_detectors_rated as Hall.
  rewrite Forall_forall in Hall. specialize (Hall fam Hf).
  rewrite Forall_forall in Hall. exact (Hall det Hd l i text x Hy).
Qed.

Lemma engine_severities_witness :
  In (mkIssue 1 "Missing alt attribute on image...." "HIGH"
        (mkRange 0 0 0 (String.length img_no_alt)))
     (fst (AccessibilityChecker.checkAccessibilityIssues img_no_alt))
  /\ (severity (mkIssue 1 "Missing alt attribute on image...." "HIGH"
                  (mkRange 0 0 0 (String.length img_no_alt))) = "HIGH"
      \/ severity (mkIssue 1 "Missing alt attribute on image...." "HIGH"
                     (mkRange 0 0 0 (String.length img_no_alt))) = "MEDIUM"
      \/ severity (mkIssue 1 "Missing alt attribute on image...." "HIGH"
                     (mkRange 0 0 0 (String.length img_no_alt))) = "LOW").
Proof.
  split; [vm_compute; left; reflexivity|].
  apply (engine_severities img_no_alt). vm_compute. left. reflexivity.
Defined.

(** No detector fires on a blank line (empty or whitespace only), so every
    issue of the engine is reported on a line of the document that has
    some non-blank text. *)
Theorem engine_blank_lines_silent (text : string) (x : AccessibilityIssue) :
  In x (fst (AccessibilityChecker.checkAccessibilityIssues text)) ->
  exists l, nth_error (split_nl text) (line x - 1) = Some l /\ trim l <> EmptyString.
Proof.
  intros Hx. destruct (engine_issue_source text x Hx) as [i [l [fam [det [Hl [Hf [Hd Hy]]]]]]].
  pose proof registered_detectors_span_line as Hs.
  rewrite Forall_forall in Hs. specialize (Hs fam Hf).
  rewrite Forall_forall in Hs. destruct (Hs det Hd l i text x Hy) as [_ Hline].
  pose proof registered_detectors_blank as Hb.
  rewrite Forall_forall in Hb. specialize (Hb fam Hf).
  rewrite Forall_forall in Hb.
  exists l. rewrite Hline. replace (i + 1 - 1) with i by lia. split; [exact Hl|].
  intros Ht. rewrite (Hb det Hd l i text Ht) in Hy. discriminate.
Qed.

Lemma engine_blank_lines_silent_witness :
  In (mkIssue 1 "Missing alt attribute on image...." "HIGH"
        (mkRange 0 0 0 (String.length img_no_alt)))
     (fst (AccessibilityChecker.checkAccessibilityIssues img_no_alt))
  /\ exists l, nth_error (split_nl img_no_alt) (1 - 1) = Some l /\ trim l <> EmptyString.
Proof.
  split; [vm_compute; left; reflexivity|].
  apply (engine_blank_lines_silent img_no_alt
           (mkIssue 1 "Missing alt attribute on image...." "HIGH"
              (mkRange 0 0 0 (String.length img_no_alt)))).
  vm_compute. left. reflexivity.
Defined.

(* ------------------------------------------------------------------ *)
(** ** The file watcher and the client configuration *)






Lemma initializeOpenAI_with_complete (env : AltTagAutoFixer.Env)
    (answer : string -> AltTagAutoFixer.CompletionOutcome) :
  AltTagAutoFixer.initializeOpenAI (AltTagAutoFixer.with_complete env answer)
  = AltTagAutoFixer.initializeOpenAI env.
Proof. reflexivity. Qed.

Lemma generateAltText_ctx_uninit (env : AltTagAutoFixer.Env) (imageSrc : string)
    (context : option string) :
  AltTagAutoFixer.initializeOpenAI env = false ->
  AltTagAutoFixer.generateAltText_ctx env imageSrc context
  = AltTagAutoFixer.mkResult false None (Some "OpenAI not initialized").
Proof. unfold AltTagAutoFixer.generateAltText_ctx. intros ->. reflexivity. Qed.

Lemma autoFixFrom_uninit (env : AltTagAutoFixer.Env) (o : AltTagAutoFixer.Oracle)
    (lines : list string) (i : nat) (rest : list string) :
  AltTagAutoFixer.initializeOpenAI env = false ->
  AltTagAutoFixer.autoFixFrom env o lines i rest = [].
Proof.
  intros Hi. revert i. induction rest as [|l rest IH]; intros i; simpl; [reflexivity|].
  rewrite IH, app_nil_r.
  destruct (_ && _); [|reflexivity].
  destruct (match_img_src (trim l)); [|reflexivity].
  rewrite generateAltText_ctx_uninit by (rewrite initializeOpenAI_with_complete; exact Hi).
  reflexivity.
Qed.

Lemma previewsFrom_uninit (env : AltTagAutoFixer.Env) (o : AltTagAutoFixer.Oracle)
    (lines : list string) (i : nat) (rest : list string) :
  AltTagAutoFixer.initializeOpenAI env = false ->
  AltTagAutoFixer.previewsFrom env o lines i rest = [].
Proof.
  intros Hi. revert i. induction rest as [|l rest IH]; intros i; simpl; [reflexivity|].
  rewrite IH, app_nil_r.
  destruct (_ && _); [|reflexivity].
  destruct (match_img_src (trim l)); [|reflexivity].
  rewrite generateAltText_ctx_uninit by (rewrite initializeOpenAI_with_complete; exact Hi).
  reflexivity.
Qed.


(** Without a cached client and without an API key (unset or empty), no
    request is made: [generateAltText] fails with "OpenAI not initialized"
    and neither the previews nor the fixes produce anything, whatever the
    remote model would answer. *)
Theorem no_api_key_no_fix (env : AltTagAutoFixer.Env) (o : AltTagAutoFixer.Oracle)
    (imageSrc : string) (context : option string) (lineNumber : nat) (lineText text : string) :
  AltTagAutoFixer.openai env = false ->
  AltTagAutoFixer.apiKey env = None \/ AltTagAutoFixer.apiKey env = Some EmptyString ->
  AltTagAutoFixer.generateAltText_ctx env imageSrc context
    = AltTagAutoFixer.mkResult false None (Some "OpenAI not initialized")
  /\ AltTagAutoFixer.getSpecificImagePreview env lineText = None
  /\ AltTagAutoFixer.fixSpecificImageTag env lineNumber lineText = None
  /\ AltTagAutoFixer.getMissingAltTagsPreview env o text = []
  /\ AltTagAutoFixer.autoFixMissingAltTags env o text = None.
Proof.
  intros Ho Hk.
  assert (Hi : AltTagAutoFixer.initializeOpenAI env = false).
  { unfold AltTagAutoFixer.initializeOpenAI. rewrite Ho.
    destruct Hk as [-> | ->]; reflexivity. }
  split; [apply generateAltText_ctx_uninit; exact Hi|].
  split.
  { unfold AltTagAutoFixer.getSpecificImagePreview. cbv zeta.
    destruct (_ || _); [reflexivity|]. destruct (match_img_src _); [|reflexivity].
    rewrite generateAltText_as_ctx, generateAltText_ctx_uninit by exact Hi. reflexivity. }
  split.
  { unfold AltTagAutoFixer.fixSpecificImageTag. cbv zeta.
    destruct (_ || _); [reflexivity|]. destruct (match_img_src _); [|reflexivity].
    rewrite generateAltText_as_ctx, generateAltText_ctx_uninit by exact Hi. reflexivity. }
  split.
  - unfold AltTagAutoFixer.getMissingAltTagsPreview. apply previewsFrom_uninit. exact Hi.
  - unfold AltTagAutoFixer.autoFixMissingAltTags. cbv zeta.
    rewrite autoFixFrom_uninit by exact Hi. reflexivity.
Qed.

Lemma no_api_key_no_fix_witness :
  AltTagAutoFixer.openai keyless_env = false
  /\ (AltTagAutoFixer.apiKey keyless_env = None
      \/ AltTagAutoFixer.apiKey keyless_env = Some EmptyString)
  /\ (AltTagAutoFixer.generateAltText_ctx keyless_env "logo.png" None
        = AltTagAutoFixer.mkResult false None (Some "OpenAI not initialized")
      /\ AltTagAutoFixer.getSpecificImagePreview keyless_env img_no_alt = None
      /\ AltTagAutoFixer.fixSpecificImageTag keyless_env 0 img_no_alt = None
      /\ AltTagAutoFixer.getMissingAltTagsPreview keyless_env answering_oracle two_images = []
      /\ AltTagAutoFixer.autoFixMissingAltTags keyless_env answering_oracle two_images = None).
Proof.
  split; [reflexivity|]. split; [right; reflexivity|].
  apply no_api_key_no_fix; [reflexivity | right; reflexivity].
Defined.


